(** * File inventory analysis: aggregation, duplicate accounting, pie
      bucketing and SEG-Y batch coverage

    A shallow embedding of [src/streamlit_segy/gui/app.py]
    ([normalize_extension], [create_pie_chart], [prepare_data_for_analysis])
    and of [src/streamlit_segy/utils/segy_analyzer.py]
    ([SEGYAnalyzer.__init__], [analyze_segy_files], [get_survey_coverage]).

    Modelling conventions.
    - A pandas DataFrame is the list of its rows, in index order.
    - Python [str] is [string]; only the ASCII range is given case and
      white-space behaviour, codes above 127 are caseless non-spaces.
    - A numeric cell is an exact rational [Q]: rounding of binary floating
      point is not modelled.  The IEEE special values that the code can
      produce by dividing by a zero total (NaN, +inf, -inf) are modelled
      ([fval]).
    - A missing cell produced by the code itself ([str.extract] without a
      match, a left merge without a partner) is [None].  Input cells are
      present, as in the File Record of the data model. *)

From Stdlib Require Import List String Ascii Bool Arith ZArith QArith Lia.
From Stdlib Require Import Permutation Sorted OrderedTypeEx.
Import ListNotations.

Local Open Scope string_scope.
Local Open Scope list_scope.

(* ================================================================== *)
(** ** Python string methods used by the code *)

Module PyStr.

Definition code (c : ascii) : nat := nat_of_ascii c.

Definition is_upper (c : ascii) : bool := (65 <=? code c)%nat && (code c <=? 90)%nat.
Definition is_lower (c : ascii) : bool := (97 <=? code c)%nat && (code c <=? 122)%nat.
Definition is_cased (c : ascii) : bool := is_upper c || is_lower c.

Definition lower_char (c : ascii) : ascii :=
  if is_upper c then ascii_of_nat (code c + 32) else c.
Definition upper_char (c : ascii) : ascii :=
  if is_lower c then ascii_of_nat (code c - 32) else c.

(** [str.isspace] on one character: TAB LF VT FF CR, FS GS RS US, SPACE. *)
Definition is_space (c : ascii) : bool :=
  ((9 <=? code c)%nat && (code c <=? 13)%nat)
  || ((28 <=? code c)%nat && (code c <=? 32)%nat).

(** [s.lower()] *)
Fixpoint lower (s : string) : string :=
  match s with
  | EmptyString => EmptyString
  | String c r => String (lower_char c) (lower r)
  end.

Fixpoint lstrip (s : string) : string :=
  match s with
  | EmptyString => EmptyString
  | String c r => if is_space c then lstrip r else s
  end.

Fixpoint rstrip (s : string) : string :=
  match s with
  | EmptyString => EmptyString
  | String c r =>
      match rstrip r with
      | EmptyString => if is_space c then EmptyString else String c EmptyString
      | r' => String c r'
      end
  end.

(** [s.strip()] *)
Definition strip (s : string) : string := rstrip (lstrip s).

(** [s.title()]: a cased character is upper-cased when the previous
    character is not cased and lower-cased when it is. *)
Fixpoint title_from (previous_is_cased : bool) (s : string) : string :=
  match s with
  | EmptyString => EmptyString
  | String c r =>
      String (if previous_is_cased then lower_char c else upper_char c)
             (title_from (is_cased c) r)
  end.
Definition title (s : string) : string := title_from false s.

(** [s.endswith(suffix)] *)
Fixpoint endswith (s suffix : string) : bool :=
  (s =? suffix) ||
  match s with
  | EmptyString => false
  | String _ r => endswith r suffix
  end.

(** [bool(s)]: a string is truthy when it is not empty. *)
Definition truthy (s : string) : bool :=
  match s with EmptyString => false | _ => true end.

End PyStr.

(* ================================================================== *)
(** ** The regular expression [\.([^.]+)$] of [str.extract] *)

Module Regex.

Definition is_dot (c : ascii) : bool := Ascii.eqb c ".".

(** [$] matches at the end of the string and just before a final
    line feed. *)
Definition at_dollar (rest : string) : bool :=
  match rest with
  | EmptyString => true
  | String c EmptyString => Ascii.eqb c "010"
  | _ => false
  end.

(** Every way the greedy [[^.]+] can match a prefix of [s], in the order
    the backtracking matcher tries them: longest first.  Each entry is
    (matched text, remaining text). *)
Fixpoint nondot_plus (s : string) : list (string * string) :=
  match s with
  | EmptyString => []
  | String c r =>
      if is_dot c then []
      else map (fun gr => (String c (fst gr), snd gr)) (nondot_plus r)
           ++ [(String c EmptyString, r)]
  end.

(** The pattern anchored at the start of [s]; the result is group 1. *)
Definition match_here (s : string) : option string :=
  match s with
  | String c r =>
      if is_dot c
      then option_map fst (find (fun gr => at_dollar (snd gr)) (nondot_plus r))
      else None
  | EmptyString => None
  end.

(** [re.search]: the match at the leftmost start position. *)
Fixpoint search (s : string) : option string :=
  match match_here s with
  | Some g => Some g
  | None =>
      match s with
      | EmptyString => None
      | String _ r => search r
      end
  end.

End Regex.

(* ================================================================== *)
(** ** [app.py]: extension normalisation *)

Definition no_extension : string := "no extension".

(** [normalize_extension(ext)]; [None] is the NaN that [str.extract]
    leaves where the pattern does not match. *)
Definition normalize_extension (ext : option string) : string :=
  match ext with
  | None => no_extension
  | Some e =>
      if negb (PyStr.truthy e) then no_extension
      else
        let e' := PyStr.strip (PyStr.lower e) in
        if PyStr.truthy e' then e' else no_extension
  end.

(** One cell of
    [df['file_name'].str.extract(r'\.([^.]+)$', expand=False).apply(normalize_extension)]. *)
Definition derive_extension (file_name : string) : string :=
  normalize_extension (Regex.search file_name).


(* ================================================================== *)
(** ** The pandas operations used by the code *)

Module Pandas.

(** *** Numeric cells with the IEEE special values *)

Inductive fval : Type :=
| Fin (q : Q)
| PInf
| NInf
| NaN.

(** [x / y] on finite cells: division by zero does not raise in numpy. *)
Definition fdiv (x y : Q) : fval :=
  if Qeq_bool y 0 then
    match Qcompare x 0 with
    | Gt => PInf
    | Lt => NInf
    | Eq => NaN
    end
  else Fin (x / y)%Q.

(** [v * k] for a positive finite [k]. *)
Definition fscale (v : fval) (k : Q) : fval :=
  match v with
  | Fin q => Fin (q * k)%Q
  | other => other
  end.

Definition fadd (a b : fval) : fval :=
  match a, b with
  | NaN, _ | _, NaN => NaN
  | Fin x, Fin y => Fin (x + y)%Q
  | PInf, NInf | NInf, PInf => NaN
  | PInf, _ | _, PInf => PInf
  | NInf, _ | _, NInf => NInf
  end.

Definition Qlt_bool (x y : Q) : bool := negb (Qle_bool y x).

(** [a < q]; every comparison with NaN is false. *)
Definition flt (a : fval) (q : Q) : bool :=
  match a with
  | Fin x => Qlt_bool x q
  | NInf => true
  | PInf | NaN => false
  end.

(** [a > b] on cells that are not NaN. *)
Definition fgt (a b : fval) : bool :=
  match a, b with
  | Fin x, Fin y => Qlt_bool y x
  | PInf, (Fin _ | NInf) => true
  | Fin _, NInf => true
  | _, _ => false
  end.

Definition isna (a : fval) : bool :=
  match a with NaN => true | _ => false end.

(** [Series.sum()] of finite cells. *)
Definition Qsum (l : list Q) : Q := fold_right Qplus 0 l.
Definition Zsum (l : list Z) : Z := fold_right Z.add 0%Z l.

(** [Series.sum()] with [skipna=True]. *)
Definition fsum (l : list fval) : fval :=
  fold_left fadd (filter (fun x => negb (isna x)) l) (Fin 0).

(** [Series.cumsum()] with [skipna=True]: a NaN cell stays NaN and adds
    nothing to the running total. *)
Fixpoint cumsum_from (acc : fval) (l : list fval) : list fval :=
  match l with
  | [] => []
  | x :: r =>
      if isna x then NaN :: cumsum_from acc r
      else let acc' := fadd acc x in acc' :: cumsum_from acc' r
  end.
Definition cumsum (l : list fval) : list fval := cumsum_from (Fin 0) l.

(** [(mask).sum()]: the number of [True] cells. *)
Definition count_true (mask : list bool) : nat :=
  List.length (filter (fun b => b) mask).

(** *** [sort_values(col, ascending=False)]

    pandas sorts the reversed column ascending and reverses the result,
    so with a stable kernel rows with equal cells keep their order.  The
    default kernel (numpy quicksort) is an insertion sort up to 16
    elements; it is modelled as a stable insertion sort throughout.
    Rows whose cell is NaN go last, in their original order. *)
Section SortValues.
Context {A : Type} (gtb : A -> A -> bool).

Fixpoint insert_desc (x : A) (l : list A) : list A :=
  match l with
  | [] => [x]
  | y :: r => if gtb y x then y :: insert_desc x r else x :: l
  end.

Definition sort_desc (l : list A) : list A := fold_right insert_desc [] l.
End SortValues.

Definition sort_values_desc_Z {A} (col : A -> Z) (df : list A) : list A :=
  sort_desc (fun a b => (col b <? col a)%Z) df.

Definition sort_values_desc_Q {A} (col : A -> Q) (df : list A) : list A :=
  sort_desc (fun a b => Qlt_bool (col b) (col a)) df.

Definition sort_values_desc_f {A} (col : A -> fval) (df : list A) : list A :=
  sort_desc (fun a b => fgt (col a) (col b))
            (filter (fun a => negb (isna (col a))) df)
  ++ filter (fun a => isna (col a)) df.

(** *** [duplicated(subset=[col], keep='first')] *)
Fixpoint duplicated_from (seen : list string) (cells : list string) : list bool :=
  match cells with
  | [] => []
  | h :: r =>
      if existsb (String.eqb h) seen
      then true :: duplicated_from seen r
      else false :: duplicated_from (h :: seen) r
  end.
Definition duplicated (cells : list string) : list bool :=
  duplicated_from [] cells.

(** [df[mask]] *)
Definition select {A} (df : list A) (mask : list bool) : list A :=
  map fst (filter snd (combine df mask)).

(** *** [groupby(by)]

    The key of a row is the tuple of its cells in the [by] columns, a
    list of strings here.  Groups come out in ascending key order
    ([sort=True]); inside a group the rows keep their order. *)
Definition key : Type := list string.
Definition key_compare : key -> key -> comparison := list_compare String.compare.
Definition key_eqb (a b : key) : bool :=
  match key_compare a b with Eq => true | _ => false end.

Section GroupBy.
Context {A : Type}.

Fixpoint group_insert (k : key) (a : A) (gs : list (key * list A))
  : list (key * list A) :=
  match gs with
  | [] => [(k, [a])]
  | (k', members) :: rest =>
      match key_compare k k' with
      | Eq => (k', members ++ [a]) :: rest
      | Lt => (k, [a]) :: gs
      | Gt => (k', members) :: group_insert k a rest
      end
  end.

Definition groupby (by_ : A -> key) (df : list A) : list (key * list A) :=
  fold_left (fun gs a => group_insert (by_ a) a gs) df [].
End GroupBy.

(** *** [left.merge(right, on=keys, how='left')]

    Each left row is paired with every right row of the same key, or with
    a missing cell when there is none; left order is kept. *)
Definition merge_left {L R} (left : list (key * L)) (right : list (key * R))
  : list (key * L * option R) :=
  flat_map
    (fun l =>
       match filter (fun r => key_eqb (fst r) (fst l)) right with
       | [] => [(fst l, snd l, None)]
       | ms => map (fun r => (fst l, snd l, Some (snd r))) ms
       end)
    left.

(** [fillna(0).astype(int)] *)
Definition fillna0 (c : option Z) : Z :=
  match c with Some z => z | None => 0%Z end.

(** *** [duplicated(subset=[col], keep=False)]

    Every row whose cell occurs more than once in the column is marked. *)
Definition duplicated_all (cells : list string) : list bool :=
  map (fun h => (1 <? count_occ string_dec cells h)%nat) cells.



End Pandas.

Import Pandas.

(* ================================================================== *)
(** ** [app.py]: [create_pie_chart] *)

(** A row of [plot_df], the frame handed to [px.pie]: the [names] cell,
    the [values] cell and the computed ['percentage'] cell. *)
Record plot_row : Type := {
  label : string;
  value : Q;
  percentage : fval
}.

Definition is_empty {A} (df : list A) : bool :=
  match df with [] => true | _ => false end.

(** The data part of [create_pie_chart(df, values, names, title, threshold_pct)].
    [values] and [names] select the two columns; the title formatting and
    the figure layout do not touch [plot_df] and are left out, and
    [threshold_pct] is never read by the body. *)
Section CreatePieChart.
Context {A : Type} (values : A -> Q) (names : A -> string).

Definition with_percentage (df : list A) : list plot_row :=
  let total := Qsum (map values df) in
  map (fun r => {| label := names r;
                   value := values r;
                   percentage := fscale (fdiv (values r) total) 100 |}) df.

(** [main_idx]; it is computed only for more than eight rows, where
    [len(df) - 1] is positive. *)
Definition main_idx_of (df : list plot_row) : nat :=
  let cumulative_pct := cumsum (map percentage df) in
  Nat.min
    (Nat.max 7 (count_true (map (fun c => flt c 95) cumulative_pct) + 1))
    (List.length df - 1).

Definition other_row (other_categories : list plot_row) : plot_row :=
  {| label := "Other";
     value := Qsum (map value other_categories);
     percentage := fsum (map percentage other_categories) |}.

Definition collapse (df : list plot_row) : list plot_row :=
  if (8 <? List.length df)%nat then
    let df := sort_values_desc_f percentage df in
    let main_idx := main_idx_of df in
    let main_categories := firstn main_idx df in
    let other_categories := skipn main_idx df in
    if negb (is_empty other_categories)
    then main_categories ++ [other_row other_categories]
    else df
  else df.

Definition create_pie_chart (df : list A) : list plot_row :=
  sort_values_desc_Q value (collapse (with_percentage df)).
End CreatePieChart.

(* ================================================================== *)
(** ** [app.py]: [prepare_data_for_analysis] *)

Record file_record : Type := {
  file_name : string;
  file_path : string;
  file_type : string;
  size_mb : Q;
  hash : string
}.

(** A row of the frame the function returns third: the input columns with
    the type title-cased, and the ['extension'] column when the view adds
    it. *)
Record prepared_row : Type := {
  record : file_record;
  extension : option string
}.

(** A row of [summary] or [pie_summary].  The three frames the function
    builds differ in their columns; a column a frame does not have is
    [None]. *)
Record summary_row : Type := {
  Extension : option string;
  File_Type : option string;
  Total_Files : Z;
  Avg_Size_MB : option Q;
  Total_Size_MB : Q;
  Duplicate_Files : Z;
  Original_Files : Z
}.

(** The cell of a key column that the frame at hand has. *)
Definition cell (c : option string) : string :=
  match c with Some s => s | None => "" end.

Definition title_type (r : file_record) : file_record :=
  {| file_name := file_name r;
     file_path := file_path r;
     file_type := PyStr.title (file_type r);
     size_mb := size_mb r;
     hash := hash r |}.

(** ['count'] of a column without missing cells. *)
Definition count_rows {A} (members : list A) : Z := Z.of_nat (List.length members).

(** [.agg({'file_name': 'count', 'size_mb': ['mean', 'sum']}).reset_index()] *)
Definition agg_count_mean_sum (groups : list (key * list prepared_row))
  : list (key * (Z * Q * Q)) :=
  map (fun g =>
         let sizes := map (fun p => size_mb (record p)) (snd g) in
         (fst g, (count_rows (snd g),
                  (Qsum sizes / inject_Z (count_rows (snd g)))%Q,
                  Qsum sizes)))
      groups.

(** [.agg({'file_name': 'count'}).reset_index()] *)
Definition agg_count (groups : list (key * list prepared_row)) : list (key * Z) :=
  map (fun g => (fst g, count_rows (snd g))) groups.

(** [df[df.duplicated(subset=['hash'], keep='first')]] *)
Definition duplicate_mask (df : list prepared_row) : list bool :=
  duplicated (map (fun p => hash (record p)) df).

(** The statements shared by both branches: group, count the duplicates
    per group, left-merge, fill, derive the originals, sort.  [by_] gives
    the grouping key of a row and [columns] turns a key back into the two
    key cells of a summary row. *)
Definition summarize (by_ : prepared_row -> key)
    (columns : key -> option string * option string)
    (df : list prepared_row) : list summary_row :=
  let summary := agg_count_mean_sum (groupby by_ df) in
  let dupe_counts := agg_count (groupby by_ (select df (duplicate_mask df))) in
  let merged := merge_left summary dupe_counts in
  let summary :=
    map (fun m =>
           let '(k, (total, avg, size), dupes) := m in
           let duplicate_files := fillna0 dupes in
           {| Extension := fst (columns k);
              File_Type := snd (columns k);
              Total_Files := total;
              Avg_Size_MB := Some avg;
              Total_Size_MB := size;
              Duplicate_Files := duplicate_files;
              Original_Files := total - duplicate_files |})
        merged in
  sort_values_desc_Z Total_Files summary.

(** [summary.groupby('Extension').agg({... : 'sum'}).reset_index()] *)
Definition rollup (summary : list summary_row) : list summary_row :=
  map (fun g =>
         {| Extension := Some (nth 0 (fst g) "");
            File_Type := None;
            Total_Files := Zsum (map Total_Files (snd g));
            Avg_Size_MB := None;
            Total_Size_MB := Qsum (map Total_Size_MB (snd g));
            Duplicate_Files := Zsum (map Duplicate_Files (snd g));
            Original_Files := Zsum (map Original_Files (snd g)) |})
      (groupby (fun s => [cell (Extension s)]) summary).

Definition prepare_data_for_analysis (df : list file_record) (view_option : string)
  : list summary_row * list summary_row * list prepared_row :=
  let df := map title_type df in
  if view_option =? "Extension" then
    let df := map (fun r => {| record := r;
                               extension := Some (derive_extension (file_name r)) |}) df in
    let summary :=
      summarize (fun p => [cell (extension p); file_type (record p)])
                (fun k => (Some (nth 0 k ""), Some (nth 1 k "")))
                df in
    let pie_summary := rollup summary in
    (summary, pie_summary, df)
  else
    let df := map (fun r => {| record := r; extension := None |}) df in
    let summary :=
      summarize (fun p => [file_type (record p)])
                (fun k => (None, Some (nth 0 k "")))
                df in
    let pie_summary := summary in
    (summary, pie_summary, df).

(* ================================================================== *)
(** ** [segy_analyzer.py]: [SEGYAnalyzer] *)

Module SEGYAnalyzer.

(** What [segyio.open(path, 'r', ignore_geometry=True)] gives access to,
    as far as the loop reads it. *)
Record segy_handle : Type := {
  trace_count : nat;                 (* len(f.trace) *)
  bin_interval : Z;                  (* f.bin[BinField.Interval] *)
  bin_traces : Z;                    (* f.bin[BinField.Traces] *)
  ilines : option (list Z);          (* f.ilines, None without geometry *)
  xlines : option (list Z);          (* f.xlines *)
  headers : list (Z * Z)             (* INLINE_3D, CROSSLINE_3D of each trace *)
}.

(** A Python call either returns or raises an [Exception] with a
    message. *)
Inductive outcome (A : Type) : Type :=
| Returns (a : A)
| Raises (message : string).
Arguments Returns {A} a.
Arguments Raises {A} message.

Definition bind {A B} (c : outcome A) (k : A -> outcome B) : outcome B :=
  match c with
  | Returns a => k a
  | Raises m => Raises m
  end.
Notation "x <- c ;; k" := (bind c (fun x => k))
  (at level 61, c at next level, right associativity).

(** The file system and the reader the loop runs against. *)
Record world : Type := {
  path_str : string -> string;                  (* str(Path(p)) *)
  path_exists : string -> outcome bool;         (* Path(p).exists() *)
  segyio_open : string -> outcome segy_handle
}.

(** One row of the result frame of [analyze_segy_files]. *)
Record analysis_row : Type := {
  a_file_path : string;
  a_file_name : string;
  a_size_mb : Q;
  total_traces : nat;
  sample_interval_us : Q;
  inline_min : Z;
  inline_max : Z;
  crossline_min : Z;
  crossline_max : Z;
  survey_area_km2 : Q
}.

(** [(xs[0], xs[-1])] *)
Definition first_last (xs : option (list Z)) : outcome (Z * Z) :=
  match xs with
  | None => Raises "'NoneType' object is not subscriptable"
  | Some [] => Raises "index out of range"
  | Some (x :: r) => Returns (x, last r x)
  end.

(** [(min(xs), max(xs))] *)
Definition min_max (xs : list Z) : outcome (Z * Z) :=
  match xs with
  | [] => Raises "min() arg is an empty sequence"
  | x :: r => Returns (fold_left Z.min r x, fold_left Z.max r x)
  end.

(** [min(max_traces_per_file or float('inf'), n_traces)] *)
Definition trace_limit (max_traces_per_file : option nat) (n_traces : nat) : nat :=
  match max_traces_per_file with
  | None | Some O => n_traces
  | Some m => Nat.min m n_traces
  end.

(** The body of the [with] block. *)
Definition read_geometry (max_traces_per_file : option nat)
    (row : file_record) (f : segy_handle) : outcome analysis_row :=
  let n_traces := trace_count f in
  let sample_rate := (inject_Z (bin_interval f) / 1000)%Q in
  ranges <-
    (if (0 <? bin_traces f)%Z then
       il_range <- first_last (ilines f) ;;
       xl_range <- first_last (xlines f) ;;
       Returns (il_range, xl_range)
     else
       let seen := firstn (trace_limit max_traces_per_file n_traces) (headers f) in
       il_range <- min_max (map fst seen) ;;
       xl_range <- min_max (map snd seen) ;;
       Returns (il_range, xl_range)) ;;
  let '(il_range, xl_range) := ranges in
  let il_dist := Z.abs (snd il_range - fst il_range) in
  let xl_dist := Z.abs (snd xl_range - fst xl_range) in
  Returns {| a_file_path := file_path row;
             a_file_name := file_name row;
             a_size_mb := size_mb row;
             total_traces := n_traces;
             sample_interval_us := (sample_rate * 1000)%Q;
             inline_min := fst il_range;
             inline_max := snd il_range;
             crossline_min := fst xl_range;
             crossline_max := snd xl_range;
             survey_area_km2 := (inject_Z (il_dist * xl_dist) / 1000000)%Q |}.

(** The analyzer object. *)
Record t : Type := {
  df : list file_record;
  segy_files : list file_record;
  missing_files : list string;
  error_files : list (string * string)
}.

Definition is_segy_name (name : string) : bool :=
  PyStr.endswith (PyStr.lower name) ".sgy"
  || PyStr.endswith (PyStr.lower name) ".segy".

(** [SEGYAnalyzer(inventory_df)] *)
Definition init (inventory_df : list file_record) : t :=
  {| df := inventory_df;
     segy_files := filter (fun r => is_segy_name (file_name r)) inventory_df;
     missing_files := [];
     error_files := [] |}.

(** The three lists the loop appends to. *)
Record tally : Type := {
  results : list analysis_row;
  missing : list string;
  errors : list (string * string)
}.

(** The three ways one iteration ends. *)
Inductive verdict : Type :=
| Accessible (r : analysis_row)
| Missing (path : string)
| Errored (path message : string).

(** The [try] block of one iteration, with its [except Exception]. *)
Definition analyze_row (w : world) (max_traces_per_file : option nat)
    (row : file_record) : verdict :=
  match path_exists w (file_path row) with
  | Raises e => Errored (file_path row) e
  | Returns false => Missing (path_str w (file_path row))
  | Returns true =>
      match f <- segyio_open w (file_path row) ;;
            read_geometry max_traces_per_file row f with
      | Returns result => Accessible result
      | Raises e => Errored (file_path row) e
      end
  end.

Definition record_verdict (acc : tally) (v : verdict) : tally :=
  match v with
  | Accessible r =>
      {| results := results acc ++ [r]; missing := missing acc; errors := errors acc |}
  | Missing p =>
      {| results := results acc; missing := missing acc ++ [p]; errors := errors acc |}
  | Errored p e =>
      {| results := results acc; missing := missing acc; errors := errors acc ++ [(p, e)] |}
  end.

(** [self.analyze_segy_files(max_traces_per_file)]: the result frame and
    the analyzer with its two lists rebuilt. *)
Definition analyze_segy_files (w : world) (self : t)
    (max_traces_per_file : option nat) : list analysis_row * t :=
  let final :=
    fold_left
      (fun acc row => record_verdict acc (analyze_row w max_traces_per_file row))
      (segy_files self)
      {| results := []; missing := []; errors := [] |} in
  (results final,
   {| df := df self;
      segy_files := segy_files self;
      missing_files := missing final;
      error_files := errors final |}).

(** The dict [get_survey_coverage] returns. *)
Record coverage : Type := {
  total_segy_files : nat;
  accessible_files : nat;
  n_missing_files : nat;
  n_error_files : nat;
  total_area_km2 : Q;
  size_gb : Q
}.

Definition get_survey_coverage (w : world) (self : t) : coverage * t :=
  let '(analysis_df, self) := analyze_segy_files w self None in
  ({| total_segy_files := List.length (segy_files self);
      accessible_files := List.length analysis_df;
      n_missing_files := List.length (missing_files self);
      n_error_files := List.length (error_files self);
      total_area_km2 :=
        if negb (is_empty analysis_df)
        then Qsum (map survey_area_km2 analysis_df) else 0;
      size_gb := (Qsum (map size_mb (segy_files self)) / 1024)%Q |},
   self).

(** [self.get_survey_boundaries()]: [None] is the empty dict returned
    when no file could be analysed; otherwise the inline range and the
    crossline range over all analysed files. *)
Definition get_survey_boundaries (w : world) (self : t)
  : option ((Z * Z) * (Z * Z)) * t :=
  let '(analysis_df, self) := analyze_segy_files w self None in
  (match analysis_df with
   | [] => None
   | r :: rest =>
       Some ((fold_left Z.min (map inline_min rest) (inline_min r),
              fold_left Z.max (map inline_max rest) (inline_max r)),
             (fold_left Z.min (map crossline_min rest) (crossline_min r),
              fold_left Z.max (map crossline_max rest) (crossline_max r)))
   end,
   self).

(** [self.get_error_summary()] and [self.get_missing_files_summary()]:
    the column labels and the rows of the frame; [pd.DataFrame()] has
    neither. *)
Definition get_error_summary (self : t) : list string * list (string * string) :=
  if is_empty (error_files self) then ([], [])
  else (["File Path"; "Error"], error_files self).

Definition get_missing_files_summary (self : t) : list string * list string :=
  if is_empty (missing_files self) then ([], [])
  else (["File Path"], missing_files self).

End SEGYAnalyzer.

(* ================================================================== *)
(** ** [app.py]: the two dashboard pages *)

(** [create_toggle_switch]: the radio group offers two labels and returns
    the one picked. *)
Inductive radio_choice : Type :=
| PickFileType
| PickExtension.

Definition create_toggle_switch (picked : radio_choice) : string :=
  match picked with
  | PickFileType => "File Type"
  | PickExtension => "Extension"
  end.

(** [names='File Type' if view_option == "File Type" else 'Extension'] *)
Definition names_column (view_option : string) (s : summary_row) : string :=
  if view_option =? "File Type" then cell (File_Type s) else cell (Extension s).




(** What [display_duplicate_stats] computes: the three metrics before
    formatting, the detailed table and the two charts, all over the rows
    whose hash recurs. *)
Record duplicate_page : Type := {
  duplicate_files_metric : nat;
  duplicate_percentage_metric : Q;
  duplicate_storage_gb_metric : Q;
  duplicate_summary : list summary_row;
  duplicate_count_chart : list plot_row;
  duplicate_size_chart : list plot_row
}.

(** [None] is the [ZeroDivisionError] of [duplicate_files/total_files]. *)
Definition display_duplicate_stats (df : list file_record) (picked : radio_choice)
  : option duplicate_page :=
  let df := map title_type df in
  let total_files := List.length df in
  let duplicates := select df (duplicated_all (map hash df)) in
  let duplicate_files := List.length duplicates in
  let duplicate_size_mb := Qsum (map size_mb duplicates) in
  if (total_files =? 0)%nat then None
  else
    let view_option := create_toggle_switch picked in
    let '(summary, pie_summary, _) := prepare_data_for_analysis duplicates view_option in
    Some {| duplicate_files_metric := duplicate_files;
            duplicate_percentage_metric :=
              (inject_Z (Z.of_nat duplicate_files) / inject_Z (Z.of_nat total_files)
               * 100)%Q;
            duplicate_storage_gb_metric := (duplicate_size_mb / 1024)%Q;
            duplicate_summary := summary;
            duplicate_count_chart :=
              create_pie_chart (fun s => inject_Z (Total_Files s))
                               (names_column view_option) pie_summary;
            duplicate_size_chart :=
              create_pie_chart Total_Size_MB (names_column view_option) pie_summary |}.

(* ================================================================== *)
(** ** Vocabulary of the statements *)

(** [has_dot s]: the string contains a ['.']. *)
Fixpoint has_dot (s : string) : bool :=
  match s with
  | EmptyString => false
  | String c r => Regex.is_dot c || has_dot r
  end.

(** The text after the last ['.'], when there is one. *)
Fixpoint after_last_dot (s : string) : option string :=
  match s with
  | EmptyString => None
  | String c r =>
      match after_last_dot r with
      | Some t => Some t
      | None => if Regex.is_dot c then Some r else None
      end
  end.

(** Ascending order of group keys, and the frames whose key column is in
    strictly ascending order. *)
Definition key_lt (a b : key) : Prop := key_compare a b = Lt.

Definition sorted_keys {V} (gs : list (key * V)) : Prop :=
  StronglySorted key_lt (map fst gs).

(** The members of the group with key [k], none when there is no such
    group. *)
Definition group_of {A} (k : key) (gs : list (key * list A)) : list A :=
  match find (fun g => key_eqb (fst g) k) gs with
  | Some g => snd g
  | None => []
  end.

(** The cumulative percentage at position [i] of a percentage column: the
    sum of the cells up to and including [i], missing where the cell is
    missing. *)
Definition cumulative_pct (pcts : list fval) (i : nat) : fval :=
  if isna (nth i pcts NaN) then NaN else fsum (firstn (S i) pcts).

(** The number of positions whose cumulative percentage is strictly less
    than 95. *)
Definition count_below_95 (pcts : list fval) : nat :=
  count_true (map (fun i => flt (cumulative_pct pcts i) 95)
                  (seq 0 (List.length pcts))).

(** [min(max(7, count + 1), N - 1)] over a frame sorted by percentage. *)
Definition cutoff_index (sorted : list plot_row) : nat :=
  Nat.min (Nat.max 7 (count_below_95 (map percentage sorted) + 1))
          (List.length sorted - 1).


(** The nine categories of the worked scenario, and ten equal ones. *)
Definition nine_categories : list (string * Q) :=
  [("a", 40); ("b", 20); ("c", 10); ("d", 10); ("e", 5);
   ("f", 5); ("g", 4); ("h", 3); ("i", 3)]%Q.

Definition ten_equal : list (string * Q) :=
  [("a", 1); ("b", 1); ("c", 1); ("d", 1); ("e", 1);
   ("f", 1); ("g", 1); ("h", 1); ("i", 1); ("j", 1)]%Q.



(** The grouping key of an input record under a view. *)
Definition record_key (view_option : string) (r : file_record) : key :=
  if view_option =? "Extension"
  then [derive_extension (file_name r); PyStr.title (file_type r)]
  else [PyStr.title (file_type r)].



(** "The average is recomputed as the weighted mean": every row of the
    extension roll-up carries [Total Size / Total Files] as its average. *)
Definition rollup_recomputes_average (records : list file_record) : Prop :=
  let pie_summary := snd (fst (prepare_data_for_analysis records "Extension")) in
  Forall (fun r => exists avg : Q,
              Avg_Size_MB r = Some avg
              /\ avg == Total_Size_MB r / inject_Z (Total_Files r))
         pie_summary.

(** Sample inventories. *)
Definition sample_record (name type : string) (size : Q) (h : string) : file_record :=
  {| file_name := name;
     file_path := "/data/" ++ name;
     file_type := type;
     size_mb := size;
     hash := h |}.


Definition one_extension_two_types : list file_record :=
  [sample_record "a.dat" "seismic" 30 "h1"; sample_record "b.dat" "seismic" 10 "h2";
   sample_record "c.dat" "well log" 2 "h3"].

Definition same_hash_twice : list file_record :=
  [sample_record "a.sgy" "seismic" 10 "a"; sample_record "copy of a.txt" "text" 10 "a";
   sample_record "b.sgy" "seismic" 5 "b"].

(** The outcomes of a batch, bucket by bucket, in batch order. *)
Definition accessible_of (vs : list SEGYAnalyzer.verdict) : list SEGYAnalyzer.analysis_row :=
  flat_map (fun v => match v with SEGYAnalyzer.Accessible r => [r] | _ => [] end) vs.

Definition missing_of (vs : list SEGYAnalyzer.verdict) : list string :=
  flat_map (fun v => match v with SEGYAnalyzer.Missing p => [p] | _ => [] end) vs.

Definition errors_of (vs : list SEGYAnalyzer.verdict) : list (string * string) :=
  flat_map (fun v => match v with SEGYAnalyzer.Errored p e => [(p, e)] | _ => [] end) vs.

(** A small inventory and a world in which one SEG-Y file reads well, one
    is gone and one is corrupt. *)
Definition sample_inventory : list file_record :=
  [sample_record "gone.SGY" "seismic" 120 "h1";
   sample_record "broken.segy" "seismic" 80 "h2";
   sample_record "notes.txt" "text" 1 "h3";
   sample_record "line1.sgy" "seismic" 200 "h4"].

Definition sample_handle : SEGYAnalyzer.segy_handle :=
  {| SEGYAnalyzer.trace_count := 3;
     SEGYAnalyzer.bin_interval := 4000;
     SEGYAnalyzer.bin_traces := 0;
     SEGYAnalyzer.ilines := None;
     SEGYAnalyzer.xlines := None;
     SEGYAnalyzer.headers := [(100, 2000); (150, 2500); (300, 1000)]%Z |}.

Definition sample_world : SEGYAnalyzer.world :=
  {| SEGYAnalyzer.path_str := fun p => p;
     SEGYAnalyzer.path_exists :=
       fun p => SEGYAnalyzer.Returns (negb (p =? "/data/gone.SGY"));
     SEGYAnalyzer.segyio_open :=
       fun p => if p =? "/data/line1.sgy"
                then SEGYAnalyzer.Returns sample_handle
                else SEGYAnalyzer.Raises "unable to find sorting" |}.

(** The three records of the duplicate scenario: two with hash ["a"], one
    with hash ["b"]. *)
Definition scenario_records : list file_record :=
  [sample_record "one.bin" "data" 10 "a"; sample_record "two.bin" "data" 10 "a";
   sample_record "three.bin" "data" 5 "b"].

(** A string that does not begin with white space. *)
Definition head_not_space (s : string) : Prop :=
  match s with
  | EmptyString => True
  | String c _ => PyStr.is_space c = false
  end.








(** A hash that occurs more than once in a frame. *)
Definition recurs (df : list file_record) (h : string) : bool :=
  (1 <? count_occ string_dec (map hash df) h)%nat.

(* ================================================================== *)
(** * Properties *)

(** ** Extension derivation *)

Example ext_tar_gz : derive_extension "archive.tar.gz" = "gz".
Proof. reflexivity. Qed.
Example ext_upper : derive_extension "Line 1.SGY " = "sgy".
Proof. reflexivity. Qed.
Example title_ex : PyStr.title "seg-y dATA file" = "Seg-Y Data File".
Proof. reflexivity. Qed.
Example strip_ex : PyStr.strip "  ab c  " = "ab c".
Proof. reflexivity. Qed.
Example ext_trailing_dot : derive_extension "draft.v2." = "no extension".
Proof. reflexivity. Qed.
Example ext_blank : derive_extension "draft. " = "no extension".
Proof. reflexivity. Qed.

Section ExtensionFacts.
Import Regex.

Lemma find_map_snd (f : string -> string) (p : string -> bool)
    (l : list (string * string)) :
  find (fun gr => p (snd gr)) (map (fun gr => (f (fst gr), snd gr)) l)
  = option_map (fun gr => (f (fst gr), snd gr)) (find (fun gr => p (snd gr)) l).
Proof.
  induction l as [|[g r] l IH]; simpl; [reflexivity|].
  destruct (p r); simpl; [reflexivity | exact IH].
Qed.

Lemma find_app_l {A} (p : A -> bool) (l1 l2 : list A) :
  find p (l1 ++ l2) = match find p l1 with Some x => Some x | None => find p l2 end.
Proof.
  induction l1 as [|x l1 IH]; simpl; [reflexivity|].
  destruct (p x); [reflexivity | exact IH].
Qed.

Lemma at_dollar_nondot (r : string) :
  at_dollar r = true -> has_dot r = false.
Proof.
  destruct r as [|c [|d r]]; simpl; try discriminate; try reflexivity.
  unfold is_dot. intros H. apply Ascii.eqb_eq in H. subst c. reflexivity.
Qed.

(** The greedy group reaches [$] exactly when the whole remainder is a
    non-empty run without dots; backtracking never finds another match. *)
Lemma find_nondot_plus (r : string) :
  find (fun gr => at_dollar (snd gr)) (nondot_plus r)
  = if negb (has_dot r) && PyStr.truthy r then Some (r, EmptyString) else None.
Proof.
  induction r as [|c r IH]; simpl; [reflexivity|].
  destruct (is_dot c) eqn:Hc; simpl; [reflexivity|].
  rewrite find_app_l, find_map_snd, IH.
  destruct (has_dot r) eqn:Hd; simpl.
  - destruct (at_dollar r) eqn:Ha; [|reflexivity].
    apply at_dollar_nondot in Ha. congruence.
  - destruct r as [|d r]; simpl; reflexivity.
Qed.

Lemma match_here_dot (r : string) :
  match_here (String "." r)
  = if negb (has_dot r) && PyStr.truthy r then Some r else None.
Proof.
  simpl. rewrite find_nondot_plus.
  destruct (negb (has_dot r) && PyStr.truthy r); reflexivity.
Qed.

Lemma match_here_other (c : ascii) (r : string) :
  is_dot c = false -> match_here (String c r) = None.
Proof. intros H. simpl. rewrite H. reflexivity. Qed.

Lemma after_last_dot_none (s : string) :
  after_last_dot s = None <-> has_dot s = false.
Proof.
  induction s as [|c r IH]; simpl; [tauto|].
  destruct (after_last_dot r) eqn:E.
  - split; [discriminate|].
    intros H. apply orb_false_iff in H. destruct H as [_ H].
    apply IH in H. discriminate.
  - destruct IH as [IH _]. rewrite (IH eq_refl), orb_false_r.
    destruct (is_dot c); split; congruence.
Qed.

(** [re.search] with the pattern returns the text after the last dot,
    unless that text is empty. *)
Lemma search_after_last_dot (s : string) :
  search s = match after_last_dot s with
             | Some t => if PyStr.truthy t then Some t else None
             | None => None
             end.
Proof.
  induction s as [|c r IH]; [reflexivity|].
  cbn [search after_last_dot].
  destruct (is_dot c) eqn:Hc.
  - unfold is_dot in Hc. apply Ascii.eqb_eq in Hc. subst c.
    rewrite match_here_dot.
    destruct (has_dot r) eqn:Hd; cbn [negb andb].
    + rewrite IH. destruct (after_last_dot r) eqn:E; [reflexivity|].
      apply after_last_dot_none in E. congruence.
    + apply after_last_dot_none in Hd. rewrite Hd in *.
      destruct (PyStr.truthy r) eqn:Ht; [reflexivity|].
      rewrite IH. reflexivity.
  - rewrite match_here_other by exact Hc. rewrite IH.
    destruct (after_last_dot r); reflexivity.
Qed.



Lemma strip_lower_empty : PyStr.strip (PyStr.lower EmptyString) = EmptyString.
Proof. reflexivity. Qed.

End ExtensionFacts.



(** ** Sums *)

Lemma Qsum_app (l1 l2 : list Q) : Qsum (l1 ++ l2) == Qsum l1 + Qsum l2.
Proof.
  induction l1 as [|x l1 IH]; simpl.
  - ring.
  - rewrite IH. ring.
Qed.

Lemma Qsum_perm (l1 l2 : list Q) : Permutation l1 l2 -> Qsum l1 == Qsum l2.
Proof.
  induction 1 as [|x l1 l2 _ IH|x y l|l1 l2 l3 _ IH1 _ IH2]; simpl.
  - reflexivity.
  - rewrite IH. reflexivity.
  - ring.
  - rewrite IH1. exact IH2.
Qed.



Lemma Qlt_bool_iff (x y : Q) : Qlt_bool x y = true <-> x < y.
Proof.
  unfold Qlt_bool. rewrite negb_true_iff.
  split; intros H.
  - apply Qnot_le_lt. intros Hle. apply Qle_bool_iff in Hle. congruence.
  - destruct (Qle_bool y x) eqn:E; [|reflexivity].
    apply Qle_bool_iff in E. exfalso. exact (Qlt_not_le _ _ H E).
Qed.

Lemma Qlt_bool_false (x y : Q) : Qlt_bool x y = false <-> y <= x.
Proof.
  unfold Qlt_bool. rewrite negb_false_iff. apply Qle_bool_iff.
Qed.

(** ** The descending stable sort *)

Section SortFacts.
Context {A : Type} (gtb : A -> A -> bool).

Lemma insert_desc_perm (x : A) (l : list A) :
  Permutation (insert_desc gtb x l) (x :: l).
Proof.
  induction l as [|y r IH]; simpl; [reflexivity|].
  destruct (gtb y x); [|reflexivity].
  rewrite IH. apply perm_swap.
Qed.

Lemma sort_desc_perm (l : list A) : Permutation (sort_desc gtb l) l.
Proof.
  induction l as [|x l IH]; simpl; [reflexivity|].
  rewrite insert_desc_perm. constructor. exact IH.
Qed.

(** The outcome is ordered by "no later row is strictly greater", as soon
    as [gtb] is asymmetric and negatively transitive on the rows at hand. *)
Section Sorted.
Variable P : A -> Prop.
Hypothesis gtb_asym : forall a b, P a -> P b -> gtb a b = true -> gtb b a = false.
Hypothesis gtb_negtrans :
  forall a b c, P a -> P b -> P c -> gtb c a = true -> gtb b a = true \/ gtb c b = true.

Lemma insert_desc_sorted (x : A) (l : list A) :
  P x -> Forall P l ->
  StronglySorted (fun a b => gtb b a = false) l ->
  StronglySorted (fun a b => gtb b a = false) (insert_desc gtb x l).
Proof.
  intros Px. induction l as [|y r IH]; intros HP Hs; simpl.
  - repeat constructor.
  - inversion HP as [|? ? Py Pr]; subst.
    inversion Hs as [|? ? Hr Hy]; subst.
    destruct (gtb y x) eqn:E.
    + constructor; [apply IH; assumption|].
      apply (Permutation_Forall (Permutation_sym (insert_desc_perm x r))).
      constructor; [|exact Hy].
      apply gtb_asym; assumption.
    + constructor; [exact Hs|].
      constructor; [exact E|].
      rewrite Forall_forall in *. intros z Hz.
      destruct (gtb z x) eqn:Ez; [|reflexivity].
      destruct (gtb_negtrans x y z Px Py (Pr z Hz) Ez) as [H|H].
      * congruence.
      * rewrite (Hy z Hz) in H. discriminate.
Qed.

Lemma sort_desc_sorted (l : list A) :
  Forall P l -> StronglySorted (fun a b => gtb b a = false) (sort_desc gtb l).
Proof.
  induction l as [|x l IH]; intros HP; simpl.
  - constructor.
  - inversion HP; subst.
    apply insert_desc_sorted; [assumption| |apply IH; assumption].
    apply (Permutation_Forall (Permutation_sym (sort_desc_perm l))). assumption.
Qed.
End Sorted.



End SortFacts.

Lemma filter_partition_perm {A} (p : A -> bool) (l : list A) :
  Permutation (filter (fun a => negb (p a)) l ++ filter p l) l.
Proof.
  induction l as [|x l IH]; simpl; [reflexivity|].
  destruct (p x); simpl.
  - rewrite <- Permutation_middle. constructor. exact IH.
  - constructor. exact IH.
Qed.

Lemma sort_values_desc_f_perm {A} (col : A -> fval) (df : list A) :
  Permutation (sort_values_desc_f col df) df.
Proof.
  unfold sort_values_desc_f. rewrite sort_desc_perm.
  apply filter_partition_perm.
Qed.

Lemma sort_values_desc_Q_perm {A} (col : A -> Q) (df : list A) :
  Permutation (sort_values_desc_Q col df) df.
Proof. apply sort_desc_perm. Qed.


Lemma StronglySorted_weaken {A} (R S : A -> A -> Prop) (l : list A) :
  (forall a b, R a b -> S a b) -> StronglySorted R l -> StronglySorted S l.
Proof.
  intros HRS. induction 1 as [|a l _ IH Ha]; constructor; [exact IH|].
  eapply Forall_impl; [|exact Ha]. intros b. apply HRS.
Qed.


(** ** Group keys *)

Lemma string_compare_eq (x y : string) : String.compare x y = Eq <-> x = y.
Proof. exact (String_as_OT.cmp_eq x y). Qed.

Lemma string_compare_opp (x y : string) :
  String.compare y x = CompOpp (String.compare x y).
Proof. apply String.compare_antisym. Qed.

Lemma string_compare_trans (x y z : string) (c : comparison) :
  String.compare x y = c -> String.compare y z = c -> String.compare x z = c.
Proof.
  assert (Hlt : forall a b d, String.compare a b = Lt -> String.compare b d = Lt ->
                              String.compare a d = Lt).
  { intros a b d H1 H2. apply String_as_OT.cmp_lt.
    apply String_as_OT.cmp_lt in H1. apply String_as_OT.cmp_lt in H2.
    exact (String_as_OT.lt_trans _ _ _ H1 H2). }
  destruct c; intros H1 H2.
  - apply string_compare_eq in H1. apply string_compare_eq in H2.
    subst. apply string_compare_eq. reflexivity.
  - exact (Hlt _ _ _ H1 H2).
  - rewrite string_compare_opp in H1. rewrite string_compare_opp in H2.
    rewrite string_compare_opp.
    destruct (String.compare y x) eqn:E1; try discriminate.
    destruct (String.compare z y) eqn:E2; try discriminate.
    rewrite (Hlt _ _ _ E2 E1). reflexivity.
Qed.

Lemma key_compare_eq (a b : key) : key_compare a b = Eq <-> a = b.
Proof. apply list_compare_refl. exact string_compare_eq. Qed.

Lemma key_compare_opp (a b : key) : key_compare b a = CompOpp (key_compare a b).
Proof.
  apply list_compare_antisym; [exact string_compare_eq | exact string_compare_opp].
Qed.

Lemma key_lt_trans (a b c : key) : key_lt a b -> key_lt b c -> key_lt a c.
Proof.
  unfold key_lt, key_compare.
  apply list_compare_trans;
    [exact string_compare_eq | exact string_compare_trans | exact string_compare_opp].
Qed.

Lemma key_lt_neq (a b : key) : key_lt a b -> a <> b.
Proof.
  unfold key_lt. intros H E. apply key_compare_eq in E. congruence.
Qed.

Lemma key_eqb_eq (a b : key) : key_eqb a b = true <-> a = b.
Proof.
  unfold key_eqb. rewrite <- key_compare_eq.
  destruct (key_compare a b); split; congruence.
Qed.

Lemma key_eqb_refl (a : key) : key_eqb a a = true.
Proof. apply key_eqb_eq. reflexivity. Qed.

Lemma key_eqb_neq (a b : key) : a <> b -> key_eqb a b = false.
Proof.
  intros H. destruct (key_eqb a b) eqn:E; [|reflexivity].
  apply key_eqb_eq in E. contradiction.
Qed.

Lemma key_lt_fresh {V} (k : key) (gs : list (key * V)) :
  Forall (key_lt k) (map fst gs) -> ~ In k (map fst gs).
Proof.
  rewrite Forall_forall. intros H Hin.
  exact (key_lt_neq _ _ (H k Hin) eq_refl).
Qed.

(** ** [groupby] *)

Section GroupByFacts.
Context {A : Type}.
Implicit Types (gs : list (key * list A)) (k : key) (a : A).

Lemma group_insert_perm k a gs :
  Permutation (List.concat (map snd (group_insert k a gs))) (a :: List.concat (map snd gs)).
Proof.
  induction gs as [|[k' ms] rest IH]; simpl; [reflexivity|].
  destruct (key_compare k k'); simpl.
  - rewrite <- app_assoc. simpl. symmetry. apply Permutation_middle.
  - reflexivity.
  - rewrite IH. symmetry. apply Permutation_middle.
Qed.

Lemma group_insert_keys k a gs (k0 : key) :
  In k0 (map fst (group_insert k a gs)) <-> k0 = k \/ In k0 (map fst gs).
Proof.
  induction gs as [|[k' ms] rest IH]; simpl.
  - intuition congruence.
  - destruct (key_compare k k') eqn:E; simpl.
    + apply key_compare_eq in E. subst k'. intuition congruence.
    + intuition congruence.
    + rewrite IH. intuition congruence.
Qed.

Lemma group_insert_sorted k a gs :
  sorted_keys gs -> sorted_keys (group_insert k a gs).
Proof.
  unfold sorted_keys.
  induction gs as [|[k' ms] rest IH]; intros Hs; simpl.
  - repeat constructor.
  - simpl in Hs. inversion Hs as [|? ? Hr Hk']; subst.
    destruct (key_compare k k') eqn:E; simpl.
    + exact Hs.
    + constructor; [exact Hs|].
      constructor; [exact E|].
      eapply Forall_impl; [|exact Hk']. intros z. apply key_lt_trans. exact E.
    + constructor; [apply IH; exact Hr|].
      apply Forall_forall. intros z Hz.
      apply group_insert_keys in Hz. destruct Hz as [->|Hz].
      * unfold key_lt. rewrite key_compare_opp, E. reflexivity.
      * rewrite Forall_forall in Hk'. apply Hk'. exact Hz.
Qed.

Lemma group_insert_nonempty k a gs :
  Forall (fun g => snd g <> []) gs ->
  Forall (fun g => snd g <> []) (group_insert k a gs).
Proof.
  induction gs as [|[k' ms] rest IH]; intros H; simpl.
  - constructor; [discriminate | constructor].
  - inversion H; subst.
    destruct (key_compare k k'); constructor; simpl; auto.
    + intros E. apply app_eq_nil in E. destruct E; discriminate.
    + discriminate.
Qed.

Lemma group_of_cons k0 k' (ms : list A) gs :
  group_of k0 ((k', ms) :: gs) = if key_eqb k' k0 then ms else group_of k0 gs.
Proof. unfold group_of. simpl. destruct (key_eqb k' k0); reflexivity. Qed.

Lemma group_of_fresh k gs : ~ In k (map fst gs) -> group_of k gs = [].
Proof.
  induction gs as [|[k' ms] rest IH]; intros H; [reflexivity|].
  rewrite group_of_cons. simpl in H.
  rewrite key_eqb_neq by (intros E; apply H; left; exact E).
  apply IH. intros Hin. apply H. right. exact Hin.
Qed.

Lemma group_of_insert k a gs (k0 : key) :
  sorted_keys gs ->
  group_of k0 (group_insert k a gs)
  = if key_eqb k k0 then group_of k0 gs ++ [a] else group_of k0 gs.
Proof.
  unfold sorted_keys.
  induction gs as [|[k' ms] rest IH]; intros Hs.
  - cbn [group_insert]. rewrite group_of_cons.
    destruct (key_eqb k k0); reflexivity.
  - simpl in Hs. inversion Hs as [|? ? Hr Hk']; subst.
    cbn [group_insert]. destruct (key_compare k k') eqn:E.
    + apply key_compare_eq in E. subst k'.
      rewrite !group_of_cons. destruct (key_eqb k k0); reflexivity.
    + rewrite (group_of_cons k0 k).
      destruct (key_eqb k k0) eqn:E0; [|reflexivity].
      apply key_eqb_eq in E0. subst k0.
      rewrite (group_of_fresh k ((k', ms) :: rest)); [reflexivity|].
      apply (key_lt_fresh k ((k', ms) :: rest)). simpl.
      constructor; [exact E|].
      eapply Forall_impl; [|exact Hk']. intros z. apply key_lt_trans. exact E.
    + rewrite !group_of_cons. rewrite (IH Hr).
      destruct (key_eqb k' k0) eqn:E0; [|reflexivity].
      apply key_eqb_eq in E0. subst k0.
      rewrite key_eqb_neq; [reflexivity|].
      intros ->. rewrite (proj2 (key_compare_eq k' k') eq_refl) in E. discriminate.
Qed.

Lemma group_of_In k (ms : list A) gs :
  sorted_keys gs -> In (k, ms) gs -> group_of k gs = ms.
Proof.
  unfold sorted_keys.
  induction gs as [|[k' ms'] rest IH]; intros Hs Hin; [contradiction|].
  simpl in Hs. inversion Hs as [|? ? Hr Hk']; subst.
  rewrite group_of_cons. destruct Hin as [E|Hin].
  - inversion E; subst. rewrite key_eqb_refl. reflexivity.
  - rewrite key_eqb_neq; [apply IH; assumption|].
    intros ->. apply (key_lt_fresh k rest Hk').
    apply (in_map fst) in Hin. exact Hin.
Qed.

Variable by_ : A -> key.

Let step := fun gs a => group_insert (by_ a) a gs.

Lemma fold_group_perm (l : list A) gs :
  Permutation (List.concat (map snd (fold_left step l gs))) (List.concat (map snd gs) ++ l).
Proof.
  revert gs. induction l as [|a l IH]; intros gs; simpl.
  - rewrite app_nil_r. reflexivity.
  - rewrite IH. unfold step at 1. rewrite group_insert_perm.
    simpl. apply Permutation_middle.
Qed.

Lemma fold_group_sorted (l : list A) gs :
  sorted_keys gs -> sorted_keys (fold_left step l gs).
Proof.
  revert gs. induction l as [|a l IH]; intros gs Hs; simpl; [exact Hs|].
  apply IH. apply group_insert_sorted. exact Hs.
Qed.

Lemma fold_group_nonempty (l : list A) gs :
  Forall (fun g => snd g <> []) gs ->
  Forall (fun g => snd g <> []) (fold_left step l gs).
Proof.
  revert gs. induction l as [|a l IH]; intros gs Hs; simpl; [exact Hs|].
  apply IH. apply group_insert_nonempty. exact Hs.
Qed.

Lemma fold_group_of (l : list A) gs (k0 : key) :
  sorted_keys gs ->
  group_of k0 (fold_left step l gs)
  = group_of k0 gs ++ filter (fun a => key_eqb (by_ a) k0) l.
Proof.
  revert gs. induction l as [|a l IH]; intros gs Hs; simpl.
  - rewrite app_nil_r. reflexivity.
  - rewrite IH by (apply group_insert_sorted; exact Hs).
    unfold step. rewrite group_of_insert by exact Hs.
    destruct (key_eqb (by_ a) k0); [|reflexivity].
    rewrite <- app_assoc. reflexivity.
Qed.

(** The groups of [groupby] partition the frame. *)
Lemma groupby_perm (l : list A) :
  Permutation (List.concat (map snd (groupby by_ l))) l.
Proof. exact (fold_group_perm l []). Qed.

(** Their keys are in strictly ascending order. *)
Lemma groupby_sorted (l : list A) : sorted_keys (groupby by_ l).
Proof. apply (fold_group_sorted l []). constructor. Qed.

(** Each group holds exactly the rows of its key, in frame order. *)
Lemma groupby_members (l : list A) k (ms : list A) :
  In (k, ms) (groupby by_ l) ->
  ms = filter (fun a => key_eqb (by_ a) k) l /\ ms <> [].
Proof.
  intros Hin. split.
  - rewrite <- (group_of_In k ms _ (groupby_sorted l) Hin).
    exact (fold_group_of l [] k (SSorted_nil _)).
  - assert (H := fold_group_nonempty l [] (Forall_nil _)).
    rewrite Forall_forall in H. exact (H _ Hin).
Qed.

(** Every key is the key of a row. *)
Lemma groupby_key_of_row (l : list A) k (ms : list A) :
  In (k, ms) (groupby by_ l) -> exists a, In a l /\ by_ a = k.
Proof.
  intros Hin. destruct (groupby_members l k ms Hin) as [E Hne].
  destruct ms as [|a ms]; [contradiction|].
  assert (Ha : In a (filter (fun a => key_eqb (by_ a) k) l)) by (rewrite <- E; left; reflexivity).
  apply filter_In in Ha. destruct Ha as [Ha Hk].
  exists a. split; [exact Ha | apply key_eqb_eq; exact Hk].
Qed.

End GroupByFacts.

(** ** Cumulative percentages *)

Lemma cumsum_from_length (acc : fval) (l : list fval) :
  List.length (cumsum_from acc l) = List.length l.
Proof.
  revert acc. induction l as [|x r IH]; intros acc; simpl; [reflexivity|].
  destruct (isna x); simpl; rewrite IH; reflexivity.
Qed.

Lemma cumsum_from_nth (l : list fval) (acc : fval) (i : nat) :
  (i < List.length l)%nat ->
  nth i (cumsum_from acc l) NaN
  = if isna (nth i l NaN) then NaN
    else fold_left fadd (filter (fun x => negb (isna x)) (firstn (S i) l)) acc.
Proof.
  revert acc i. induction l as [|x r IH]; intros acc i Hi; simpl in Hi; [lia|].
  destruct i as [|i].
  - cbn [cumsum_from nth firstn]. destruct (isna x) eqn:E; simpl.
    + reflexivity.
    + rewrite E. reflexivity.
  - assert (Hi' : (i < List.length r)%nat) by lia.
    cbn [cumsum_from]. destruct (isna x) eqn:E.
    + cbn [nth]. rewrite (IH acc i Hi').
      change (firstn (S (S i)) (x :: r)) with (x :: firstn (S i) r).
      cbn [filter]. rewrite E. reflexivity.
    + cbn [nth]. rewrite (IH (fadd acc x) i Hi').
      change (firstn (S (S i)) (x :: r)) with (x :: firstn (S i) r).
      cbn [filter]. rewrite E. reflexivity.
Qed.

(** [cumsum] computes the cumulative percentages. *)
Lemma cumsum_cumulative_pct (pcts : list fval) :
  cumsum pcts = map (cumulative_pct pcts) (seq 0 (List.length pcts)).
Proof.
  apply (nth_ext _ _ NaN (cumulative_pct pcts 0%nat)).
  - unfold cumsum. rewrite cumsum_from_length, length_map, length_seq. reflexivity.
  - unfold cumsum. rewrite cumsum_from_length. intros i Hi.
    rewrite (cumsum_from_nth pcts (Fin 0) i Hi).
    rewrite (map_nth (cumulative_pct pcts) (seq 0 (List.length pcts)) 0%nat i).
    rewrite seq_nth by exact Hi. reflexivity.
Qed.

Lemma main_idx_cutoff (df : list plot_row) : main_idx_of df = cutoff_index df.
Proof.
  unfold main_idx_of, cutoff_index, count_below_95.
  rewrite cumsum_cumulative_pct, map_map, length_map. reflexivity.
Qed.

Lemma cutoff_index_bounds (df : list plot_row) :
  (8 < List.length df)%nat ->
  (7 <= cutoff_index df <= List.length df - 1)%nat.
Proof. unfold cutoff_index. lia. Qed.

(** ** [create_pie_chart] *)






Section PieFacts.
Context {A : Type} (values : A -> Q) (names : A -> string).

Lemma with_percentage_length (df : list A) :
  List.length (with_percentage values names df) = List.length df.
Proof. unfold with_percentage. apply length_map. Qed.

Lemma with_percentage_values (df : list A) :
  map value (with_percentage values names df) = map values df.
Proof. unfold with_percentage. rewrite map_map. reflexivity. Qed.

(** With more than eight rows the frame is always split: the branch that
    keeps every row is never taken. *)
Lemma collapse_many (rows : list plot_row) :
  (8 < List.length rows)%nat ->
  let sorted := sort_values_desc_f percentage rows in
  collapse rows
  = firstn (cutoff_index sorted) sorted
    ++ [other_row (skipn (cutoff_index sorted) sorted)]
  /\ skipn (cutoff_index sorted) sorted <> [].
Proof.
  intros Hlen sorted.
  assert (Hs : List.length sorted = List.length rows)
    by (apply Permutation_length, sort_values_desc_f_perm).
  assert (Hb := cutoff_index_bounds sorted ltac:(lia)).
  assert (Hne : skipn (cutoff_index sorted) sorted <> []).
  { intros E. apply (f_equal (@List.length _)) in E.
    rewrite length_skipn in E. simpl in E. lia. }
  split; [|exact Hne].
  unfold collapse. apply Nat.ltb_lt in Hlen. rewrite Hlen.
  fold sorted. rewrite main_idx_cutoff.
  destruct (skipn (cutoff_index sorted) sorted); [contradiction|reflexivity].
Qed.

Lemma collapse_few (rows : list plot_row) :
  (List.length rows <= 8)%nat -> collapse rows = rows.
Proof.
  intros H. unfold collapse.
  destruct (8 <? List.length rows)%nat eqn:E; [|reflexivity].
  apply Nat.ltb_lt in E. lia.
Qed.

End PieFacts.






(** C3.  The values of the chart rows, ["Other"] included, sum to the
    values of the input; and the input rows split into kept rows, which
    are chart rows as they are, and merged rows, which appear only through
    the one ["Other"] row that sums them: no row is on both sides. *)
Theorem C3_collapse_conserves :
  forall (A : Type) (values : A -> Q) (names : A -> string) (df : list A),
    Qsum (map value (create_pie_chart values names df)) == Qsum (map values df)
    /\ exists kept merged : list plot_row,
         Permutation (with_percentage values names df) (kept ++ merged)
         /\ Permutation (create_pie_chart values names df)
              (kept ++ match merged with
                       | [] => []
                       | _ => [other_row merged]
                       end).
Proof.
  intros A values names df.
  set (rows := with_percentage values names df).
  assert (Hsplit : exists kept merged : list plot_row,
             Permutation rows (kept ++ merged)
             /\ Permutation (create_pie_chart values names df)
                  (kept ++ match merged with
                           | [] => []
                           | _ => [other_row merged]
                           end)).
  { unfold create_pie_chart. fold rows.
    destruct (Nat.ltb_spec 8 (List.length rows)) as [Hlen|Hlen].
    - destruct (collapse_many rows Hlen) as [E Hne].
      set (sorted := sort_values_desc_f percentage rows) in *.
      exists (firstn (cutoff_index sorted) sorted), (skipn (cutoff_index sorted) sorted).
      split.
      + rewrite firstn_skipn. symmetry. apply sort_values_desc_f_perm.
      + rewrite sort_values_desc_Q_perm, E.
        destruct (skipn (cutoff_index sorted) sorted); [contradiction|reflexivity].
    - exists rows, []. split.
      + rewrite app_nil_r. reflexivity.
      + rewrite sort_values_desc_Q_perm, collapse_few by exact Hlen.
        rewrite app_nil_r. reflexivity. }
  split; [|exact Hsplit].
  destruct Hsplit as (kept & merged & Hin & Hout).
  rewrite (Qsum_perm _ _ (Permutation_map value Hout)).
  rewrite <- with_percentage_values with (names := names). fold rows.
  rewrite (Qsum_perm _ _ (Permutation_map value Hin)).
  rewrite !map_app, !Qsum_app.
  destruct merged as [|m merged]; [reflexivity|].
  cbn [map other_row value Qsum fold_right]. fold (Qsum (map value (m :: merged))).
  cbn [map]. ring.
Qed.

(** ** [merge] on frames with distinct keys *)






(** ** [summarize] *)

Section SummarizeFacts.
Variable by_ : prepared_row -> key.
Variable columns : key -> option string * option string.







End SummarizeFacts.

(** ** Duplicate labels *)

Lemma duplicated_from_nth (cells seen : list string) (i : nat) (h : string) :
  nth_error cells i = Some h ->
  nth_error (duplicated_from seen cells) i
  = Some (existsb (String.eqb h) seen || existsb (String.eqb h) (firstn i cells)).
Proof.
  revert seen i. induction cells as [|h0 r IH]; intros seen i Hi.
  - destruct i; discriminate.
  - destruct i as [|i]; cbn [nth_error] in Hi.
    + inversion Hi; subst h0. cbn [duplicated_from firstn existsb].
      destruct (existsb (String.eqb h) seen); reflexivity.
    + cbn [duplicated_from firstn existsb].
      destruct (existsb (String.eqb h0) seen) eqn:E; cbn [nth_error].
      * rewrite (IH seen i Hi).
        destruct (String.eqb_spec h h0) as [->|_]; [|reflexivity].
        rewrite E. reflexivity.
      * rewrite (IH (h0 :: seen) i Hi). cbn [existsb].
        destruct (h =? h0), (existsb (String.eqb h) seen); reflexivity.
Qed.

Lemma existsb_map {A B} (f : A -> B) (p : B -> bool) (l : list A) :
  existsb p (map f l) = existsb (fun a => p (f a)) l.
Proof. induction l as [|a l IH]; simpl; [reflexivity | rewrite IH; reflexivity]. Qed.

Lemma prepared_hashes (records : list file_record) (view_option : string) :
  map (fun p => hash (record p)) (snd (prepare_data_for_analysis records view_option))
  = map hash records.
Proof.
  unfold prepare_data_for_analysis.
  destruct (view_option =? "Extension"); cbn [snd];
    rewrite !map_map; apply map_ext; reflexivity.
Qed.

(** C5.  The label of the record at position [i] is "duplicate" exactly
    when a record before it in input order has the same hash: the first
    record of a hash is original and every later one is a duplicate,
    whatever the other fields are, and the label is the same under every
    view option, File Type or Extension. *)
Theorem C5_duplicate_labels :
  forall (records : list file_record) (view_option : string)
         (i : nat) (r : file_record),
    nth_error records i = Some r ->
    nth_error (duplicate_mask (snd (prepare_data_for_analysis records view_option))) i
    = Some (existsb (fun q => hash r =? hash q) (firstn i records)).
Proof.
  intros records view_option i r Hr.
  unfold duplicate_mask, duplicated. rewrite prepared_hashes.
  rewrite (duplicated_from_nth (map hash records) [] i (hash r)).
  - cbn [existsb orb]. rewrite firstn_map, existsb_map. reflexivity.
  - rewrite nth_error_map, Hr. reflexivity.
Qed.

Lemma C5_duplicate_labels_witness :
  nth_error (duplicate_mask (snd (prepare_data_for_analysis same_hash_twice "Extension"))) 1
  = Some true
  /\ nth_error (duplicate_mask (snd (prepare_data_for_analysis same_hash_twice "File Type"))) 2
     = Some false.
Proof.
  split.
  - exact (C5_duplicate_labels same_hash_twice "Extension" 1
             (sample_record "copy of a.txt" "text" 10 "a") eq_refl).
  - exact (C5_duplicate_labels same_hash_twice "File Type" 2
             (sample_record "b.sgy" "seismic" 5 "b") eq_refl).
Defined.

(** ** Grouped summary *)




Example scenario_summary :
  map (fun s => (File_Type s, Total_Files s, Duplicate_Files s, Original_Files s,
                 Qred (Total_Size_MB s)))
      (fst (fst (prepare_data_for_analysis scenario_records "File Type")))
  = [(Some "Data", 3%Z, 1%Z, 2%Z, 25%Q)]
  /\ duplicate_mask (snd (prepare_data_for_analysis scenario_records "File Type"))
     = [false; true; false].
Proof. split; reflexivity. Qed.


(** ** Order of the summary rows *)





(** ** The extension roll-up *)

Lemma key_eqb_singleton (x y : string) : key_eqb [x] [y] = (x =? y).
Proof.
  destruct (String.eqb_spec x y) as [->|N].
  - apply key_eqb_refl.
  - apply key_eqb_neq. intros E. inversion E. contradiction.
Qed.

Lemma rollup_rows (summary : list summary_row) :
  let extension_groups := groupby (fun s => [cell (Extension s)]) summary in
  map (fun r => [cell (Extension r)]) (rollup summary) = map fst extension_groups
  /\ Forall (fun r => exists e : string,
                Extension r = Some e /\ File_Type r = None /\ Avg_Size_MB r = None
                /\ let across := filter (fun s => cell (Extension s) =? e) summary in
                   across <> []
                   /\ Total_Files r = Zsum (map Total_Files across)
                   /\ Duplicate_Files r = Zsum (map Duplicate_Files across)
                   /\ Original_Files r = Zsum (map Original_Files across)
                   /\ Total_Size_MB r = Qsum (map Total_Size_MB across))
            (rollup summary)
  /\ forall s, In s summary ->
               exists r, In r (rollup summary)
                         /\ Extension r = Some (cell (Extension s)).
Proof.
  intros groups. unfold rollup. fold groups.
  assert (Hg : forall k ms, In (k, ms) groups ->
             exists e, k = [e]
                       /\ ms = filter (fun s => cell (Extension s) =? e) summary
                       /\ ms <> []).
  { intros k ms Hin.
    destruct (groupby_key_of_row _ summary k ms Hin) as (a & _ & <-).
    destruct (groupby_members _ summary _ ms Hin) as [Hms Hne].
    exists (cell (Extension a)). split; [reflexivity|]. split; [|exact Hne].
    rewrite Hms. apply filter_ext. intros s. apply key_eqb_singleton. }
  split; [|split].
  - rewrite map_map. apply map_ext_in. intros [k ms] Hin.
    destruct (Hg k ms Hin) as (e & -> & _). reflexivity.
  - apply Forall_forall. intros r Hr.
    apply in_map_iff in Hr. destruct Hr as ([k ms] & <- & Hin).
    destruct (Hg k ms Hin) as (e & -> & Hms & Hne).
    exists e. cbn [fst snd nth Extension File_Type Avg_Size_MB Total_Files
                   Duplicate_Files Original_Files Total_Size_MB].
    rewrite <- Hms. repeat split. exact Hne.
  - intros s Hs.
    apply (Permutation_in _ (Permutation_sym
             (groupby_perm (fun s => [cell (Extension s)]) summary))) in Hs.
    fold groups in Hs.
    apply in_concat in Hs. destruct Hs as (ms & Hms & Hs).
    apply in_map_iff in Hms. destruct Hms as ([k ms'] & E & Hin).
    cbn [snd] in E. subst ms'.
    destruct (Hg k ms Hin) as (e & -> & Hfilter & _).
    rewrite Hfilter in Hs. apply filter_In in Hs. destruct Hs as [_ He].
    apply String.eqb_eq in He.
    eexists. split; [apply in_map; exact Hin|].
    cbn [fst nth Extension]. rewrite He. reflexivity.
Qed.

(** C7, as the code has it.  The extension roll-up has one row per
    extension of the summary, in ascending order; [Total Files],
    [Duplicate Files], [Original Files] and [Total Size (MB)] of a row are
    the sums over the summary rows of that extension, across their file
    types; the roll-up has no file-type column and no average column: the
    average is neither carried forward nor recomputed. *)
Theorem C7_extension_rollup :
  forall records : list file_record,
    let summary := fst (fst (prepare_data_for_analysis records "Extension")) in
    let pie_summary := snd (fst (prepare_data_for_analysis records "Extension")) in
    StronglySorted key_lt (map (fun r => [cell (Extension r)]) pie_summary)
    /\ Forall (fun r => exists e : string,
                  Extension r = Some e /\ File_Type r = None /\ Avg_Size_MB r = None
                  /\ let across := filter (fun s => cell (Extension s) =? e) summary in
                     across <> []
                     /\ Total_Files r = Zsum (map Total_Files across)
                     /\ Duplicate_Files r = Zsum (map Duplicate_Files across)
                     /\ Original_Files r = Zsum (map Original_Files across)
                     /\ Total_Size_MB r = Qsum (map Total_Size_MB across))
              pie_summary
    /\ forall s, In s summary ->
                 exists r, In r pie_summary /\ Extension r = Some (cell (Extension s)).
Proof.
  intros records summary pie_summary.
  assert (E : pie_summary = rollup summary) by reflexivity.
  rewrite E. destruct (rollup_rows summary) as (Hkeys & Hrows & Hall).
  split; [|split; assumption].
  rewrite Hkeys. apply groupby_sorted.
Qed.

Lemma C7_extension_rollup_witness :
  exists r,
    In r (snd (fst (prepare_data_for_analysis one_extension_two_types "Extension")))
    /\ Extension r = Some "dat".
Proof.
  destruct (C7_extension_rollup one_extension_two_types) as (_ & _ & Hall).
  refine (Hall {| Extension := Some "dat"; File_Type := Some "Well Log";
                  Total_Files := 1; Avg_Size_MB := Some (2 / 1)%Q;
                  Total_Size_MB := (2 + 0)%Q; Duplicate_Files := 0;
                  Original_Files := 1 |} _).
  vm_compute. right. left. reflexivity.
Defined.

(** C7, as stated, fails: for one extension shared by two file types the
    roll-up row has no average at all, so it does not carry
    [Total Size / Total Files]. *)
Lemma C7_counterexample :
  map Avg_Size_MB (snd (fst (prepare_data_for_analysis one_extension_two_types "Extension")))
  = [None]
  /\ ~ rollup_recomputes_average one_extension_two_types.
Proof.
  split; [reflexivity|].
  unfold rollup_recomputes_average. intros H.
  inversion H as [|r rest (avg & Havg & _) _ E].
  vm_compute in E. inversion E; subst r. discriminate Havg.
Qed.

(** ** The SEG-Y batch *)

Section BatchFacts.
Import SEGYAnalyzer.
Variable w : world.
Variable max_traces_per_file : option nat.

Let step := fun acc row => record_verdict acc (analyze_row w max_traces_per_file row).

(** The loop appends, bucket by bucket, the outcome of every row. *)
Lemma fold_tally (rows : list file_record) (acc : tally) :
  let vs := map (analyze_row w max_traces_per_file) rows in
  results (fold_left step rows acc) = results acc ++ accessible_of vs
  /\ missing (fold_left step rows acc) = missing acc ++ missing_of vs
  /\ errors (fold_left step rows acc) = errors acc ++ errors_of vs.
Proof.
  revert acc. induction rows as [|row rows IH]; intros acc; cbn zeta.
  - simpl. rewrite !app_nil_r. auto.
  - cbn [fold_left map]. destruct (IH (step acc row)) as (Hr & Hm & He).
    rewrite Hr, Hm, He. clear Hr Hm He. subst step. cbv beta.
    unfold accessible_of, missing_of, errors_of. cbn [flat_map].
    destruct (analyze_row w max_traces_per_file row);
      cbn [record_verdict results missing errors];
      rewrite <- ?app_assoc; auto.
Qed.

Lemma analyze_segy_files_tally (self : t) :
  let vs := map (analyze_row w max_traces_per_file) (segy_files self) in
  fst (analyze_segy_files w self max_traces_per_file) = accessible_of vs
  /\ missing_files (snd (analyze_segy_files w self max_traces_per_file)) = missing_of vs
  /\ error_files (snd (analyze_segy_files w self max_traces_per_file)) = errors_of vs
  /\ segy_files (snd (analyze_segy_files w self max_traces_per_file)) = segy_files self.
Proof.
  intros vs. unfold analyze_segy_files. cbn [fst snd missing_files error_files segy_files].
  destruct (fold_tally (segy_files self)
              {| results := []; missing := []; errors := [] |}) as (Hr & Hm & He).
  repeat split; assumption.
Qed.

End BatchFacts.

Lemma buckets_partition (vs : list SEGYAnalyzer.verdict) :
  (List.length (accessible_of vs) + List.length (missing_of vs)
   + List.length (errors_of vs) = List.length vs)%nat.
Proof.
  unfold accessible_of, missing_of, errors_of.
  induction vs as [|v vs IH]; [reflexivity|].
  cbn [flat_map]. rewrite !length_app.
  destruct v; simpl; lia.
Qed.


Lemma endswith_iff (s suffix : string) :
  PyStr.endswith s suffix = true <-> exists stem, s = (stem ++ suffix)%string.
Proof.
  split.
  - induction s as [|c r IH]; cbn [PyStr.endswith]; intros H;
      apply orb_true_iff in H; destruct H as [H|H].
    + apply String.eqb_eq in H. exists EmptyString. exact H.
    + discriminate.
    + apply String.eqb_eq in H. exists EmptyString. exact H.
    + destruct (IH H) as (stem & ->). exists (String c stem). reflexivity.
  - intros (stem & ->). induction stem as [|c stem IH].
    + destruct suffix; cbn [PyStr.endswith String.append];
        rewrite String.eqb_refl; reflexivity.
    + cbn [PyStr.endswith String.append]. rewrite IH. apply orb_true_r.
Qed.



(** C10.  In the coverage report the accessible, missing and error counts
    add up to [total_segy_files]: every selected file is in exactly one
    bucket.  For a fresh analyzer [total_segy_files] counts the inventory
    rows whose lower-cased [file_name] ends with [".sgy"] or [".segy"]. *)
Theorem C10_coverage_partition :
  (forall (w : SEGYAnalyzer.world) (self : SEGYAnalyzer.t),
      let report := fst (SEGYAnalyzer.get_survey_coverage w self) in
      (SEGYAnalyzer.accessible_files report + SEGYAnalyzer.n_missing_files report
       + SEGYAnalyzer.n_error_files report
       = SEGYAnalyzer.total_segy_files report)%nat
      /\ SEGYAnalyzer.total_segy_files report = List.length (SEGYAnalyzer.segy_files self))
  /\ (forall inventory : list file_record,
         SEGYAnalyzer.segy_files (SEGYAnalyzer.init inventory)
         = filter (fun r => SEGYAnalyzer.is_segy_name (file_name r)) inventory)
  /\ (forall name : string,
         SEGYAnalyzer.is_segy_name name = true
         <-> exists stem : string,
               PyStr.lower name = (stem ++ ".sgy")%string
               \/ PyStr.lower name = (stem ++ ".segy")%string).
Proof.
  split; [|split].
  - intros w self report.
    destruct (analyze_segy_files_tally w None self) as (Hr & Hm & He & Hs).
    unfold report, SEGYAnalyzer.get_survey_coverage.
    destruct (SEGYAnalyzer.analyze_segy_files w self None) as [analysis_df self'].
    cbn [fst snd] in *.
    cbn [SEGYAnalyzer.accessible_files SEGYAnalyzer.n_missing_files
         SEGYAnalyzer.n_error_files SEGYAnalyzer.total_segy_files].
    rewrite Hr, Hm, He, Hs, buckets_partition, length_map. split; reflexivity.
  - intros inventory. reflexivity.
  - intros name. unfold SEGYAnalyzer.is_segy_name.
    rewrite orb_true_iff, !endswith_iff. split.
    + intros [(stem & H)|(stem & H)]; exists stem; [left|right]; exact H.
    + intros (stem & [H|H]); [left|right]; exists stem; exact H.
Qed.

Lemma C10_coverage_partition_witness :
  SEGYAnalyzer.total_segy_files
    (fst (SEGYAnalyzer.get_survey_coverage sample_world (SEGYAnalyzer.init sample_inventory)))
  = 3%nat
  /\ exists stem : string,
       PyStr.lower "Line1.SGY" = (stem ++ ".sgy")%string
       \/ PyStr.lower "Line1.SGY" = (stem ++ ".segy")%string.
Proof.
  destruct C10_coverage_partition as (Hcount & _ & Hname).
  split.
  - rewrite (proj2 (Hcount sample_world (SEGYAnalyzer.init sample_inventory))).
    reflexivity.
  - apply (proj1 (Hname "Line1.SGY")). reflexivity.
Defined.

(* ================================================================== *)
(** * Further properties of the code *)

(** ** Characters and strings *)

Ltac by_ascii c :=
  destruct c as [[|] [|] [|] [|] [|] [|] [|] [|]]; vm_compute; reflexivity.

Lemma lower_char_idem (c : ascii) :
  PyStr.lower_char (PyStr.lower_char c) = PyStr.lower_char c.
Proof. by_ascii c. Qed.


Lemma is_cased_lower_char (c : ascii) :
  PyStr.is_cased (PyStr.lower_char c) = PyStr.is_cased c.
Proof. by_ascii c. Qed.


Lemma is_space_lower_char (c : ascii) :
  PyStr.is_space (PyStr.lower_char c) = PyStr.is_space c.
Proof. by_ascii c. Qed.

Lemma is_dot_lower_char (c : ascii) :
  Regex.is_dot (PyStr.lower_char c) = Regex.is_dot c.
Proof. by_ascii c. Qed.

Lemma lower_idem (s : string) : PyStr.lower (PyStr.lower s) = PyStr.lower s.
Proof.
  induction s as [|c r IH]; simpl; [reflexivity|].
  rewrite lower_char_idem, IH. reflexivity.
Qed.

Lemma lstrip_lower (s : string) :
  PyStr.lstrip (PyStr.lower s) = PyStr.lower (PyStr.lstrip s).
Proof.
  induction s as [|c r IH]; simpl; [reflexivity|].
  rewrite is_space_lower_char. destruct (PyStr.is_space c); [exact IH | reflexivity].
Qed.

Lemma rstrip_lower (s : string) :
  PyStr.rstrip (PyStr.lower s) = PyStr.lower (PyStr.rstrip s).
Proof.
  induction s as [|c r IH]; simpl; [reflexivity|].
  rewrite IH, is_space_lower_char.
  destruct (PyStr.rstrip r); simpl; [|reflexivity].
  destruct (PyStr.is_space c); reflexivity.
Qed.

Lemma strip_lower (s : string) :
  PyStr.strip (PyStr.lower s) = PyStr.lower (PyStr.strip s).
Proof. unfold PyStr.strip. rewrite lstrip_lower, rstrip_lower. reflexivity. Qed.

Lemma lstrip_head (s : string) : head_not_space (PyStr.lstrip s).
Proof.
  induction s as [|c r IH]; simpl; [exact I|].
  destruct (PyStr.is_space c) eqn:E; [exact IH | exact E].
Qed.

Lemma lstrip_fixed (s : string) : head_not_space s -> PyStr.lstrip s = s.
Proof. destruct s as [|c r]; simpl; [reflexivity|]. intros ->. reflexivity. Qed.

Lemma rstrip_head (s : string) : head_not_space s -> head_not_space (PyStr.rstrip s).
Proof.
  destruct s as [|c r]; simpl; [trivial|]. intros H.
  destruct (PyStr.rstrip r); [rewrite H|]; exact H.
Qed.

Lemma rstrip_idem (s : string) : PyStr.rstrip (PyStr.rstrip s) = PyStr.rstrip s.
Proof.
  induction s as [|c r IH]; [reflexivity|].
  cbn [PyStr.rstrip]. destruct (PyStr.rstrip r) as [|d r'] eqn:E.
  - destruct (PyStr.is_space c) eqn:Ec; [reflexivity|].
    cbn [PyStr.rstrip]. rewrite Ec. reflexivity.
  - cbn [PyStr.rstrip] in *. rewrite IH. reflexivity.
Qed.

Lemma strip_idem (s : string) : PyStr.strip (PyStr.strip s) = PyStr.strip s.
Proof.
  unfold PyStr.strip.
  rewrite (lstrip_fixed (PyStr.rstrip (PyStr.lstrip s)))
    by (apply rstrip_head, lstrip_head).
  apply rstrip_idem.
Qed.

Lemma has_dot_lower (s : string) : has_dot (PyStr.lower s) = has_dot s.
Proof.
  induction s as [|c r IH]; simpl; [reflexivity|].
  rewrite is_dot_lower_char, IH. reflexivity.
Qed.

Lemma has_dot_lstrip (s : string) : has_dot s = false -> has_dot (PyStr.lstrip s) = false.
Proof.
  induction s as [|c r IH]; simpl; [trivial|]. intros H.
  apply orb_false_iff in H. destruct H as [Hc Hr].
  destruct (PyStr.is_space c); [apply IH; exact Hr|].
  simpl. rewrite Hc, Hr. reflexivity.
Qed.

Lemma has_dot_rstrip (s : string) : has_dot s = false -> has_dot (PyStr.rstrip s) = false.
Proof.
  induction s as [|c r IH]; simpl; [trivial|]. intros H.
  apply orb_false_iff in H. destruct H as [Hc Hr]. specialize (IH Hr).
  destruct (PyStr.rstrip r).
  - destruct (PyStr.is_space c); simpl; [reflexivity|]. rewrite Hc. reflexivity.
  - cbn [has_dot] in *. rewrite Hc. exact IH.
Qed.

Lemma after_last_dot_nodot (s t : string) :
  after_last_dot s = Some t -> has_dot t = false.
Proof.
  induction s as [|c r IH]; simpl; [discriminate|].
  destruct (after_last_dot r) eqn:E.
  - intros H. inversion H; subst. apply IH. reflexivity.
  - destruct (Regex.is_dot c); [|discriminate].
    intros H. inversion H; subst. apply after_last_dot_none. exact E.
Qed.

(** The shape of every result of [normalize_extension]. *)
Lemma normalize_extension_cases (ext : option string) :
  normalize_extension ext = no_extension
  \/ exists e, ext = Some e
               /\ normalize_extension ext = PyStr.strip (PyStr.lower e)
               /\ PyStr.strip (PyStr.lower e) <> EmptyString.
Proof.
  destruct ext as [e|]; [|left; reflexivity].
  unfold normalize_extension.
  destruct (PyStr.truthy e); cbn [negb]; [|left; reflexivity].
  destruct (PyStr.strip (PyStr.lower e)) eqn:E; cbn [PyStr.truthy].
  - left. reflexivity.
  - right. exists e. rewrite E. split; [reflexivity|]. split; [reflexivity|]. discriminate.
Qed.

(** X1.  [normalize_extension] is idempotent: normalising a normalised
    extension changes nothing. *)
Theorem normalize_extension_idempotent :
  forall ext : option string,
    normalize_extension (Some (normalize_extension ext)) = normalize_extension ext.
Proof.
  intros ext. destruct (normalize_extension_cases ext) as [E|(e & _ & E & Hne)].
  - rewrite E. reflexivity.
  - rewrite E. unfold normalize_extension.
    destruct (PyStr.strip (PyStr.lower e)) as [|c r] eqn:Es; [contradiction|].
    cbn [PyStr.truthy negb]. rewrite <- Es.
    rewrite <- strip_lower, lower_idem, strip_idem, Es. reflexivity.
Qed.

(** X2.  The derived extension of any file name is never empty, contains
    no ['.'], has no upper-case letter and no white space at either
    end. *)
Theorem derive_extension_shape :
  forall name : string,
    derive_extension name <> EmptyString
    /\ has_dot (derive_extension name) = false
    /\ PyStr.lower (derive_extension name) = derive_extension name
    /\ PyStr.strip (derive_extension name) = derive_extension name.
Proof.
  intros name. unfold derive_extension.
  destruct (normalize_extension_cases (Regex.search name)) as [E|(e & Hs & E & Hne)].
  - rewrite E. repeat split. discriminate.
  - rewrite E. split; [exact Hne|].
    assert (Hdot : has_dot e = false).
    { rewrite search_after_last_dot in Hs.
      destruct (after_last_dot name) as [t|] eqn:Ea; [|discriminate].
      destruct (PyStr.truthy t); [|discriminate].
      inversion Hs; subst. exact (after_last_dot_nodot _ _ Ea). }
    split; [|split].
    + unfold PyStr.strip. apply has_dot_rstrip, has_dot_lstrip.
      rewrite has_dot_lower. exact Hdot.
    + rewrite <- strip_lower, lower_idem. reflexivity.
    + apply strip_idem.
Qed.

(** ** Title case *)




(** ** More on [create_pie_chart] *)

Lemma sort_values_desc_Q_sorted {A} (col : A -> Q) (df : list A) :
  StronglySorted (fun a b => col b <= col a) (sort_values_desc_Q col df).
Proof.
  unfold sort_values_desc_Q.
  eapply StronglySorted_weaken; cycle 1.
  - apply (sort_desc_sorted _ (fun _ => True)).
    + intros a b _ _ H. apply Qlt_bool_iff in H. apply Qlt_bool_false.
      apply Qlt_le_weak. exact H.
    + intros a b c _ _ _ H. apply Qlt_bool_iff in H.
      destruct (Qlt_le_dec (col a) (col b)) as [L|L].
      * left. apply Qlt_bool_iff. exact L.
      * right. apply Qlt_bool_iff. eapply Qle_lt_trans; eassumption.
    + apply Forall_forall. intros; exact I.
  - cbv beta. intros a b H. apply Qlt_bool_false in H. exact H.
Qed.


(** X4.  Whatever the number of categories, the rows handed to the chart
    are in descending order of value; ["Other"] stands where its summed
    value puts it. *)
Theorem create_pie_chart_sorted :
  forall (A : Type) (values : A -> Q) (names : A -> string) (df : list A),
    StronglySorted (fun a b => value b <= value a)
                   (create_pie_chart values names df).
Proof.
  intros A values names df. unfold create_pie_chart.
  apply sort_values_desc_Q_sorted.
Qed.

(** X5.  With at most eight categories nothing is merged: the chart has
    one row per input row, with its name and its value, and no row is
    added. *)
Theorem create_pie_chart_few :
  forall (A : Type) (values : A -> Q) (names : A -> string) (df : list A),
    (List.length df <= 8)%nat ->
    Permutation (map (fun r => (label r, value r)) (create_pie_chart values names df))
                (map (fun a => (names a, values a)) df)
    /\ List.length (create_pie_chart values names df) = List.length df.
Proof.
  intros A values names df Hlen.
  assert (Hp : Permutation (create_pie_chart values names df)
                           (with_percentage values names df)).
  { unfold create_pie_chart. rewrite sort_values_desc_Q_perm.
    rewrite collapse_few; [reflexivity|].
    rewrite with_percentage_length. exact Hlen. }
  split.
  - rewrite (Permutation_map (fun r => (label r, value r)) Hp).
    unfold with_percentage. rewrite map_map. reflexivity.
  - rewrite (Permutation_length Hp). apply with_percentage_length.
Qed.

Lemma create_pie_chart_few_witness :
  List.length (create_pie_chart snd fst (firstn 3 nine_categories)) = 3%nat.
Proof.
  exact (proj2 (create_pie_chart_few _ snd fst (firstn 3 nine_categories)
                  ltac:(simpl; lia))).
Defined.







(** A sort leaves a frame alone when no row is strictly greater than
    another. *)
Lemma sort_desc_fixed {A} (gtb : A -> A -> bool) (l : list A) :
  (forall a b, In a l -> In b l -> gtb a b = false) -> sort_desc gtb l = l.
Proof.
  induction l as [|x l IH]; intros H; [reflexivity|].
  cbn [sort_desc fold_right]. fold (sort_desc gtb l).
  rewrite IH by (intros a b Ha Hb; apply H; right; assumption).
  destruct l as [|y l]; [reflexivity|].
  cbn [insert_desc]. rewrite H; [reflexivity | right; left; reflexivity | left; reflexivity].
Qed.

Lemma Qsum_zero (l : list Q) : Forall (fun q => q == 0) l -> Qsum l == 0.
Proof.
  induction 1 as [|q l Hq _ IH]; simpl; [reflexivity|].
  rewrite Hq, IH. ring.
Qed.

Lemma cumsum_from_all_nan (acc : fval) (l : list fval) :
  Forall (fun v => v = NaN) l ->
  count_true (map (fun c => flt c 95) (cumsum_from acc l)) = 0%nat.
Proof.
  induction 1 as [|v l Hv _ IH]; [reflexivity|].
  subst v. cbn [cumsum_from isna map flt]. exact IH.
Qed.

Lemma filter_all {A} (p : A -> bool) (l : list A) :
  Forall (fun a => p a = true) l -> filter p l = l.
Proof.
  induction 1 as [|a l Ha _ IH]; simpl; [reflexivity|].
  rewrite Ha, IH. reflexivity.
Qed.

Lemma filter_none {A} (p : A -> bool) (l : list A) :
  Forall (fun a => p a = false) l -> filter p l = [].
Proof.
  induction 1 as [|a l Ha _ IH]; simpl; [reflexivity|].
  rewrite Ha. exact IH.
Qed.

Lemma In_firstn {A} (n : nat) (l : list A) (x : A) : In x (firstn n l) -> In x l.
Proof.
  intros H. rewrite <- (firstn_skipn n l). apply in_or_app. left. exact H.
Qed.

Lemma In_skipn {A} (n : nat) (l : list A) (x : A) : In x (skipn n l) -> In x l.
Proof.
  intros H. rewrite <- (firstn_skipn n l). apply in_or_app. right. exact H.
Qed.

(** X7.  When every value is zero the division by the zero total gives
    NaN percentages and raises nothing; with more than eight categories
    the chart then keeps the first seven rows, in input order, and merges
    all the others into ["Other"]. *)
Theorem create_pie_chart_zero_total :
  forall (A : Type) (values : A -> Q) (names : A -> string) (df : list A),
    (8 < List.length df)%nat ->
    Forall (fun a => values a == 0) df ->
    Forall (fun r => percentage r = NaN) (with_percentage values names df)
    /\ create_pie_chart values names df
       = firstn 7 (with_percentage values names df)
         ++ [other_row (skipn 7 (with_percentage values names df))].
Proof.
  intros A values names df Hlen Hzero.
  set (rows := with_percentage values names df).
  assert (Htot : Qeq_bool (Qsum (map values df)) 0 = true).
  { apply Qeq_bool_iff, Qsum_zero. apply Forall_forall. intros q Hq.
    apply in_map_iff in Hq. destruct Hq as (a & <- & Ha).
    rewrite Forall_forall in Hzero. exact (Hzero a Ha). }
  assert (Hnan : Forall (fun r => percentage r = NaN) rows).
  { unfold rows, with_percentage. apply Forall_forall. intros r Hr.
    apply in_map_iff in Hr. destruct Hr as (a & <- & Ha).
    cbn [percentage]. unfold fdiv. rewrite Htot.
    rewrite Forall_forall in Hzero. specialize (Hzero a Ha).
    apply Qeq_alt in Hzero. rewrite Hzero. reflexivity. }
  split; [exact Hnan|].
  assert (Hval : Forall (fun r => value r == 0) rows).
  { unfold rows, with_percentage. apply Forall_forall. intros r Hr.
    apply in_map_iff in Hr. destruct Hr as (a & <- & Ha).
    rewrite Forall_forall in Hzero. exact (Hzero a Ha). }
  assert (Hrows : (8 < List.length rows)%nat)
    by (unfold rows; rewrite with_percentage_length; exact Hlen).
  assert (Hsorted : sort_values_desc_f percentage rows = rows).
  { unfold sort_values_desc_f.
    rewrite filter_none, filter_all; [reflexivity| |].
    - eapply Forall_impl; [|exact Hnan]. intros r ->. reflexivity.
    - eapply Forall_impl; [|exact Hnan]. intros r ->. reflexivity. }
  assert (Hidx : main_idx_of rows = 7%nat).
  { unfold main_idx_of, cumsum. rewrite cumsum_from_all_nan.
    - simpl Nat.max. lia.
    - apply Forall_forall. intros v Hv. apply in_map_iff in Hv.
      destruct Hv as (r & <- & Hr). rewrite Forall_forall in Hnan. exact (Hnan r Hr). }
  assert (Hcollapse : collapse rows = firstn 7 rows ++ [other_row (skipn 7 rows)]).
  { unfold collapse. apply Nat.ltb_lt in Hrows. rewrite Hrows, Hsorted, Hidx.
    destruct (skipn 7 rows) eqn:E; [|reflexivity].
    apply (f_equal (@List.length _)) in E. rewrite length_skipn in E.
    apply Nat.ltb_lt in Hrows. simpl in E. lia. }
  unfold create_pie_chart. fold rows. rewrite Hcollapse.
  unfold sort_values_desc_Q. apply sort_desc_fixed.
  intros a b Ha Hb.
  assert (Hall : forall r, In r (firstn 7 rows ++ [other_row (skipn 7 rows)]) ->
                           value r == 0).
  { intros r Hr. apply in_app_or in Hr. destruct Hr as [Hr|[<-|[]]].
    - apply In_firstn in Hr. rewrite Forall_forall in Hval. exact (Hval r Hr).
    - cbn [other_row value]. apply Qsum_zero. apply Forall_forall. intros q Hq.
      apply in_map_iff in Hq. destruct Hq as (r & <- & Hr).
      apply In_skipn in Hr. rewrite Forall_forall in Hval. exact (Hval r Hr). }
  apply Qlt_bool_false. rewrite (Hall a Ha), (Hall b Hb). apply Qle_refl.
Qed.

Lemma create_pie_chart_zero_total_witness :
  map label (create_pie_chart (fun _ : string * Q => 0) fst ten_equal)
  = ["a"; "b"; "c"; "d"; "e"; "f"; "g"; "Other"].
Proof.
  rewrite (proj2 (create_pie_chart_zero_total _ (fun _ : string * Q => 0) fst ten_equal
                    ltac:(simpl; lia)
                    ltac:(repeat constructor))).
  reflexivity.
Defined.

(** ** More on [prepare_data_for_analysis] *)





Lemma filter_map_comm {A B} (f : A -> B) (p : B -> bool) (l : list A) :
  filter p (map f l) = map f (filter (fun a => p (f a)) l).
Proof.
  induction l as [|a l IH]; simpl; [reflexivity|].
  destruct (p (f a)); simpl; rewrite IH; reflexivity.
Qed.














(** ** Duplicate and original counts over the whole table *)














(** ** The extension roll-up against the input *)













(** ** The inventory page *)








(** ** The duplicate page *)

Lemma select_by_predicate {A} (p : A -> bool) (l : list A) :
  select l (map p l) = filter p l.
Proof.
  unfold select. induction l as [|a l IH]; [reflexivity|].
  cbn [map combine filter snd]. destruct (p a); cbn [map fst]; rewrite IH; reflexivity.
Qed.

Lemma title_hashes (df : list file_record) :
  map hash (map title_type df) = map hash df.
Proof. rewrite map_map. reflexivity. Qed.

(** The frame of the duplicate page: the title-cased records whose hash
    recurs. *)
Lemma duplicates_frame (df : list file_record) :
  select (map title_type df) (duplicated_all (map hash (map title_type df)))
  = filter (fun r => recurs df (hash r)) (map title_type df).
Proof.
  unfold duplicated_all. rewrite title_hashes.
  rewrite <- (select_by_predicate (fun r => recurs df (hash r))).
  f_equal. rewrite !map_map. reflexivity.
Qed.

Lemma count_occ_filter (p : string -> bool) (l : list string) (h : string) :
  p h = true -> count_occ string_dec (filter p l) h = count_occ string_dec l h.
Proof.
  intros Hp. induction l as [|x l IH]; [reflexivity|].
  cbn [filter]. destruct (string_dec x h) as [->|N].
  - rewrite Hp. rewrite !count_occ_cons_eq by reflexivity. rewrite IH. reflexivity.
  - rewrite (count_occ_cons_neq _ _ N). destruct (p x); [|exact IH].
    rewrite (count_occ_cons_neq _ _ N). exact IH.
Qed.

(** Rows whose hash recurs never come alone. *)
Lemma recurring_not_single (df : list file_record) :
  List.length (filter (fun r => recurs df (hash r)) (map title_type df)) <> 1%nat.
Proof.
  set (dups := filter (fun r => recurs df (hash r)) (map title_type df)).
  destruct dups as [|r rest] eqn:E; [discriminate|].
  assert (Hr : In r dups) by (rewrite E; left; reflexivity).
  unfold dups in Hr. apply filter_In in Hr. destruct Hr as [_ Hr].
  assert (Hc : count_occ string_dec (map hash dups) (hash r)
               = count_occ string_dec (map hash df) (hash r)).
  { unfold dups. rewrite <- (title_hashes df).
    rewrite <- (filter_map_comm hash (recurs df)).
    apply count_occ_filter. exact Hr. }
  unfold recurs in Hr. apply Nat.ltb_lt in Hr.
  assert (Hb := count_occ_bound string_dec (hash r) (map hash dups)).
  rewrite length_map, E in Hb. rewrite E in Hc. simpl List.length in *. lia.
Qed.

Lemma duplicate_page_metrics (df : list file_record) (picked : radio_choice)
    (page : duplicate_page) :
  display_duplicate_stats df picked = Some page ->
  let duplicates := filter (fun r => recurs df (hash r)) (map title_type df) in
  df <> []
  /\ duplicate_files_metric page = List.length duplicates
  /\ duplicate_percentage_metric page
     = (inject_Z (Z.of_nat (List.length duplicates))
        / inject_Z (Z.of_nat (List.length df)) * 100)%Q
  /\ duplicate_storage_gb_metric page = (Qsum (map size_mb duplicates) / 1024)%Q
  /\ duplicate_summary page
     = fst (fst (prepare_data_for_analysis duplicates (create_toggle_switch picked))).
Proof.
  unfold display_duplicate_stats. rewrite duplicates_frame, length_map.
  destruct df as [|r0 df0]; [discriminate|].
  cbn [List.length Nat.eqb].
  set (df := r0 :: df0).
  destruct (prepare_data_for_analysis
              (filter (fun r => recurs df (hash r)) (map title_type df))
              (create_toggle_switch picked)) as [[s p] d].
  intros H. inversion H; subst page. cbn.
  repeat split. discriminate.
Qed.

(** X16.  The duplicate page fails with a division by zero exactly for
    an empty inventory.  Otherwise "Total Duplicate Files" counts the
    records whose hash recurs: it is never 1 and never more than the
    number of records, and "Duplicate Percentage" lies between 0 and
    100. *)
Theorem duplicate_page_metrics_range :
  forall (df : list file_record) (picked : radio_choice),
    (display_duplicate_stats df picked = None <-> df = [])
    /\ forall page : duplicate_page,
         display_duplicate_stats df picked = Some page ->
         duplicate_files_metric page
         = List.length (filter (fun r => recurs df (hash r)) df)
         /\ duplicate_files_metric page <> 1%nat
         /\ (duplicate_files_metric page <= List.length df)%nat
         /\ 0 <= duplicate_percentage_metric page <= 100.
Proof.
  intros df picked. split.
  - split.
    + intros H. destruct df as [|r df]; [reflexivity|].
      unfold display_duplicate_stats in H. rewrite length_map in H.
      cbn [List.length Nat.eqb] in H.
      destruct (prepare_data_for_analysis _ _) as [[s p] d] in H. discriminate.
    + intros ->. reflexivity.
  - intros page Hpage.
    destruct (duplicate_page_metrics df picked page Hpage) as (Hne & Hm & Hp & _).
    cbv zeta in Hm, Hp.
    set (dups := filter (fun r => recurs df (hash r)) (map title_type df)) in *.
    assert (Hlen : List.length dups
                   = List.length (filter (fun r => recurs df (hash r)) df)).
    { unfold dups. rewrite filter_map_comm, length_map. reflexivity. }
    assert (Hle : (List.length dups <= List.length df)%nat).
    { rewrite Hlen. apply filter_length_le. }
    assert (Hpos : (0 < List.length df)%nat).
    { destruct df; [contradiction | simpl; lia]. }
    split; [rewrite Hm; exact Hlen|].
    split; [rewrite Hm; apply recurring_not_single|].
    split; [rewrite Hm; exact Hle|].
    rewrite Hp.
    assert (Hd : 0 < inject_Z (Z.of_nat (List.length df))).
    { change 0 with (inject_Z 0). rewrite <- Zlt_Qlt. lia. }
    assert (Hn : 0 <= inject_Z (Z.of_nat (List.length dups))).
    { change 0 with (inject_Z 0). rewrite <- Zle_Qle. lia. }
    assert (Hnd : inject_Z (Z.of_nat (List.length dups))
                  <= inject_Z (Z.of_nat (List.length df))).
    { rewrite <- Zle_Qle. lia. }
    split.
    + apply Qmult_le_0_compat; [|discriminate].
      apply Qle_shift_div_l; [exact Hd|]. rewrite Qmult_0_l. exact Hn.
    + setoid_replace 100 with (1 * 100) at 2 by ring.
      apply Qmult_le_compat_r; [|discriminate].
      apply Qle_shift_div_r; [exact Hd|]. rewrite Qmult_1_l. exact Hnd.
Qed.

Lemma duplicate_page_metrics_range_witness :
  exists page : duplicate_page,
    display_duplicate_stats same_hash_twice PickFileType = Some page
    /\ duplicate_files_metric page <> 1%nat.
Proof.
  destruct (display_duplicate_stats same_hash_twice PickFileType) as [page|] eqn:E.
  - exists page. split; [reflexivity|].
    exact (proj1 (proj2 (proj2 (duplicate_page_metrics_range same_hash_twice PickFileType)
                           page E))).
  - vm_compute in E. discriminate E.
Defined.







(** ** Geometry of one SEG-Y file *)

Lemma fold_min_bound (l : list Z) (x : Z) :
  (fold_left Z.min l x <= x)%Z
  /\ forall y, In y l -> (fold_left Z.min l x <= y)%Z.
Proof.
  revert x. induction l as [|a l IH]; intros x; simpl.
  - split; [lia | intros y []].
  - destruct (IH (Z.min x a)) as [H1 H2]. split; [lia|].
    intros y [<-|Hy]; [lia | apply H2; exact Hy].
Qed.

Lemma fold_max_bound (l : list Z) (x : Z) :
  (x <= fold_left Z.max l x)%Z
  /\ forall y, In y l -> (y <= fold_left Z.max l x)%Z.
Proof.
  revert x. induction l as [|a l IH]; intros x; simpl.
  - split; [lia | intros y []].
  - destruct (IH (Z.max x a)) as [H1 H2]. split; [lia|].
    intros y [<-|Hy]; [lia | apply H2; exact Hy].
Qed.

Lemma min_max_returns (xs : list Z) (lo hi : Z) :
  SEGYAnalyzer.min_max xs = SEGYAnalyzer.Returns (lo, hi) ->
  xs <> [] /\ forall y, In y xs -> (lo <= y <= hi)%Z.
Proof.
  destruct xs as [|x r]; [discriminate|].
  cbn [SEGYAnalyzer.min_max]. intros H. injection H as <- <-.
  split; [discriminate|].
  destruct (fold_min_bound r x) as [Hm1 Hm2].
  destruct (fold_max_bound r x) as [HM1 HM2].
  intros y [<-|Hy]; [lia|]. split; [apply Hm2 | apply HM2]; exact Hy.
Qed.


(** What a successful read of one file returns. *)
Lemma read_geometry_returns (max_traces_per_file : option nat)
    (row : file_record) (f : SEGYAnalyzer.segy_handle) (r : SEGYAnalyzer.analysis_row) :
  SEGYAnalyzer.read_geometry max_traces_per_file row f = SEGYAnalyzer.Returns r ->
  SEGYAnalyzer.a_file_path r = file_path row
  /\ SEGYAnalyzer.total_traces r = SEGYAnalyzer.trace_count f
  /\ SEGYAnalyzer.survey_area_km2 r
     = (inject_Z (Z.abs (SEGYAnalyzer.inline_max r - SEGYAnalyzer.inline_min r)
                  * Z.abs (SEGYAnalyzer.crossline_max r - SEGYAnalyzer.crossline_min r))
        / 1000000)%Q
  /\ ((0 < SEGYAnalyzer.bin_traces f)%Z
      /\ SEGYAnalyzer.first_last (SEGYAnalyzer.ilines f)
         = SEGYAnalyzer.Returns (SEGYAnalyzer.inline_min r, SEGYAnalyzer.inline_max r)
      /\ SEGYAnalyzer.first_last (SEGYAnalyzer.xlines f)
         = SEGYAnalyzer.Returns (SEGYAnalyzer.crossline_min r, SEGYAnalyzer.crossline_max r)
      \/ (SEGYAnalyzer.bin_traces f <= 0)%Z
         /\ let seen := firstn (SEGYAnalyzer.trace_limit max_traces_per_file
                                  (SEGYAnalyzer.trace_count f))
                               (SEGYAnalyzer.headers f) in
            SEGYAnalyzer.min_max (map fst seen)
            = SEGYAnalyzer.Returns (SEGYAnalyzer.inline_min r, SEGYAnalyzer.inline_max r)
            /\ SEGYAnalyzer.min_max (map snd seen)
               = SEGYAnalyzer.Returns (SEGYAnalyzer.crossline_min r,
                                       SEGYAnalyzer.crossline_max r)).
Proof.
  unfold SEGYAnalyzer.read_geometry.
  destruct (Z.ltb_spec 0 (SEGYAnalyzer.bin_traces f)) as [Hb|Hb].
  - destruct (SEGYAnalyzer.first_last (SEGYAnalyzer.ilines f)) as [[i0 i1]|e];
      cbn [SEGYAnalyzer.bind]; [|discriminate].
    destruct (SEGYAnalyzer.first_last (SEGYAnalyzer.xlines f)) as [[x0 x1]|e];
      cbn [SEGYAnalyzer.bind]; [|discriminate].
    intros H. injection H as <-. cbn. repeat split. left. repeat split. exact Hb.
  - destruct (SEGYAnalyzer.min_max (map fst _)) as [[i0 i1]|e];
      cbn [SEGYAnalyzer.bind]; [|discriminate].
    destruct (SEGYAnalyzer.min_max (map snd _)) as [[x0 x1]|e];
      cbn [SEGYAnalyzer.bind]; [|discriminate].
    intros H. injection H as <-. cbn. repeat split. right. repeat split. exact Hb.
Qed.

(** X18.  When the binary header declares no traces per ensemble, the
    ranges of a file come from the trace headers that were inspected, the
    first [min(max_traces_per_file, n_traces)] of them or all of them
    when no positive limit is given: there is at least one such header,
    and every one of them has its inline and its crossline number within
    the reported ranges. *)
Theorem header_ranges_enclose :
  forall (max_traces_per_file : option nat) (row : file_record)
         (f : SEGYAnalyzer.segy_handle) (r : SEGYAnalyzer.analysis_row),
    SEGYAnalyzer.read_geometry max_traces_per_file row f = SEGYAnalyzer.Returns r ->
    (SEGYAnalyzer.bin_traces f <= 0)%Z ->
    let inspected := firstn (SEGYAnalyzer.trace_limit max_traces_per_file
                               (SEGYAnalyzer.trace_count f))
                            (SEGYAnalyzer.headers f) in
    inspected <> []
    /\ forall il xl : Z,
         In (il, xl) inspected ->
         (SEGYAnalyzer.inline_min r <= il <= SEGYAnalyzer.inline_max r)%Z
         /\ (SEGYAnalyzer.crossline_min r <= xl <= SEGYAnalyzer.crossline_max r)%Z.
Proof.
  intros m row f r Hr Hb inspected.
  destruct (read_geometry_returns m row f r Hr) as (_ & _ & _ & [(Hpos & _)|(_ & Hi & Hx)]);
    [lia|].
  cbv zeta in Hi, Hx. fold inspected in Hi, Hx.
  destruct (min_max_returns _ _ _ Hi) as [Hne Hil].
  destruct (min_max_returns _ _ _ Hx) as [_ Hxl].
  split.
  - intros E. rewrite E in Hne. apply Hne. reflexivity.
  - intros il xl Hin. split.
    + apply Hil. exact (in_map fst _ _ Hin).
    + apply Hxl. exact (in_map snd _ _ Hin).
Qed.

Lemma header_ranges_enclose_witness :
  exists r : SEGYAnalyzer.analysis_row,
    SEGYAnalyzer.read_geometry (Some 2%nat)
      (sample_record "line1.sgy" "seismic" 200 "h4") sample_handle
    = SEGYAnalyzer.Returns r
    /\ (SEGYAnalyzer.inline_min r <= 150 <= SEGYAnalyzer.inline_max r)%Z.
Proof.
  destruct (SEGYAnalyzer.read_geometry (Some 2%nat)
              (sample_record "line1.sgy" "seismic" 200 "h4") sample_handle)
    as [r|e] eqn:E.
  - exists r. split; [reflexivity|].
    refine (proj1 (proj2 (header_ranges_enclose _ _ _ r E _) 150%Z 2500%Z _)).
    + simpl. lia.
    + simpl. right. left. reflexivity.
  - vm_compute in E. discriminate E.
Defined.

(** X19.  Reading a file succeeds exactly in two cases: the binary
    header declares traces per ensemble and both line lists are present
    and not empty, or it declares none and at least one trace header is
    inspected.  In particular a file without traces is an error, not an
    empty survey. *)
Theorem read_geometry_succeeds_iff :
  forall (max_traces_per_file : option nat) (row : file_record)
         (f : SEGYAnalyzer.segy_handle),
    (exists r, SEGYAnalyzer.read_geometry max_traces_per_file row f
               = SEGYAnalyzer.Returns r)
    <-> ((0 < SEGYAnalyzer.bin_traces f)%Z
         /\ (exists i il, SEGYAnalyzer.ilines f = Some (i :: il))
         /\ (exists x xl, SEGYAnalyzer.xlines f = Some (x :: xl)))
        \/ ((SEGYAnalyzer.bin_traces f <= 0)%Z
            /\ firstn (SEGYAnalyzer.trace_limit max_traces_per_file
                         (SEGYAnalyzer.trace_count f))
                      (SEGYAnalyzer.headers f) <> []).
Proof.
  intros m row f. split.
  - intros (r & Hr).
    destruct (read_geometry_returns m row f r Hr)
      as (_ & _ & _ & [(Hpos & Hi & Hx)|(Hneg & Hi & _)]).
    + left. split; [exact Hpos|]. split.
      * destruct (SEGYAnalyzer.ilines f) as [[|i il]|]; try discriminate. eauto.
      * destruct (SEGYAnalyzer.xlines f) as [[|x xl]|]; try discriminate. eauto.
    + right. split; [exact Hneg|]. cbv zeta in Hi.
      destruct (min_max_returns _ _ _ Hi) as [Hne _].
      intros E. rewrite E in Hne. apply Hne. reflexivity.
  - unfold SEGYAnalyzer.read_geometry.
    intros [(Hpos & (i & il & Hi) & (x & xl & Hx))|(Hneg & Hne)].
    + apply Z.ltb_lt in Hpos. rewrite Hpos, Hi, Hx. cbn. eauto.
    + apply Z.ltb_ge in Hneg. rewrite Hneg.
      destruct (firstn _ (SEGYAnalyzer.headers f)) as [|[i x] rest]; [contradiction|].
      cbn. eauto.
Qed.

Lemma read_geometry_succeeds_iff_witness :
  exists r, SEGYAnalyzer.read_geometry None
              (sample_record "line1.sgy" "seismic" 200 "h4") sample_handle
            = SEGYAnalyzer.Returns r.
Proof.
  apply (proj2 (read_geometry_succeeds_iff None
                  (sample_record "line1.sgy" "seismic" 200 "h4") sample_handle)).
  right. split; [simpl; lia | simpl; discriminate].
Defined.

(** ** The batch, its lists and its reports *)

(** Why a row lands in a bucket. *)
Lemma analyze_row_cases (w : SEGYAnalyzer.world) (max_traces_per_file : option nat)
    (row : file_record) :
  match SEGYAnalyzer.analyze_row w max_traces_per_file row with
  | SEGYAnalyzer.Accessible r =>
      SEGYAnalyzer.path_exists w (file_path row) = SEGYAnalyzer.Returns true
      /\ exists f, SEGYAnalyzer.segyio_open w (file_path row) = SEGYAnalyzer.Returns f
                   /\ SEGYAnalyzer.read_geometry max_traces_per_file row f
                      = SEGYAnalyzer.Returns r
  | SEGYAnalyzer.Missing p =>
      SEGYAnalyzer.path_exists w (file_path row) = SEGYAnalyzer.Returns false
      /\ p = SEGYAnalyzer.path_str w (file_path row)
  | SEGYAnalyzer.Errored p e =>
      p = file_path row
      /\ (SEGYAnalyzer.path_exists w (file_path row) = SEGYAnalyzer.Raises e
          \/ SEGYAnalyzer.path_exists w (file_path row) = SEGYAnalyzer.Returns true
             /\ (SEGYAnalyzer.segyio_open w (file_path row) = SEGYAnalyzer.Raises e
                 \/ exists f,
                      SEGYAnalyzer.segyio_open w (file_path row) = SEGYAnalyzer.Returns f
                      /\ SEGYAnalyzer.read_geometry max_traces_per_file row f
                         = SEGYAnalyzer.Raises e))
  end.
Proof.
  unfold SEGYAnalyzer.analyze_row.
  destruct (SEGYAnalyzer.path_exists w (file_path row)) as [[|]|e].
  - destruct (SEGYAnalyzer.segyio_open w (file_path row)) as [f|e]; cbn [SEGYAnalyzer.bind].
    + destruct (SEGYAnalyzer.read_geometry max_traces_per_file row f) as [r|e] eqn:E.
      * split; [reflexivity|]. exists f. split; [reflexivity | exact E].
      * split; [reflexivity|]. right. split; [reflexivity|]. right.
        exists f. split; [reflexivity | exact E].
    + split; [reflexivity|]. right. split; [reflexivity|]. left. reflexivity.
  - split; reflexivity.
  - split; [reflexivity|]. left. reflexivity.
Qed.

Lemma in_accessible_of (vs : list SEGYAnalyzer.verdict) (r : SEGYAnalyzer.analysis_row) :
  In r (accessible_of vs) <-> In (SEGYAnalyzer.Accessible r) vs.
Proof.
  unfold accessible_of. rewrite in_flat_map. split.
  - intros (v & Hv & Hr). destruct v; try contradiction.
    destruct Hr as [<-|[]]. exact Hv.
  - intros H. eexists. split; [exact H | left; reflexivity].
Qed.

Lemma in_missing_of (vs : list SEGYAnalyzer.verdict) (p : string) :
  In p (missing_of vs) <-> In (SEGYAnalyzer.Missing p) vs.
Proof.
  unfold missing_of. rewrite in_flat_map. split.
  - intros (v & Hv & Hr). destruct v; try contradiction.
    destruct Hr as [<-|[]]. exact Hv.
  - intros H. eexists. split; [exact H | left; reflexivity].
Qed.

Lemma in_errors_of (vs : list SEGYAnalyzer.verdict) (p e : string) :
  In (p, e) (errors_of vs) <-> In (SEGYAnalyzer.Errored p e) vs.
Proof.
  unfold errors_of. rewrite in_flat_map. split.
  - intros (v & Hv & Hr). destruct v; try contradiction.
    destruct Hr as [E|[]]. injection E as <- <-. exact Hv.
  - intros H. eexists. split; [exact H | left; reflexivity].
Qed.

(** X20.  Nothing is recorded without cause.  Every path in the missing
    list belongs to a selected SEG-Y row of the inventory whose path does
    not exist; every entry of the error list belongs to such a row whose
    existence test, opening or reading raised the recorded message; and
    every row of the result frame belongs to such a row that exists,
    opened and was read.  Rows that are not SEG-Y files never show up. *)
Theorem batch_lists_sound :
  forall (w : SEGYAnalyzer.world) (inventory : list file_record)
         (max_traces_per_file : option nat),
    let run := SEGYAnalyzer.analyze_segy_files w (SEGYAnalyzer.init inventory)
                 max_traces_per_file in
    let selected := fun row => In row inventory
                               /\ SEGYAnalyzer.is_segy_name (file_name row) = true in
    (forall p, In p (SEGYAnalyzer.missing_files (snd run)) ->
               exists row, selected row
                           /\ p = SEGYAnalyzer.path_str w (file_path row)
                           /\ SEGYAnalyzer.path_exists w (file_path row)
                              = SEGYAnalyzer.Returns false)
    /\ (forall p e, In (p, e) (SEGYAnalyzer.error_files (snd run)) ->
                    exists row, selected row
                                /\ p = file_path row
                                /\ SEGYAnalyzer.analyze_row w max_traces_per_file row
                                   = SEGYAnalyzer.Errored p e)
    /\ (forall r, In r (fst run) ->
                  exists row f, selected row
                                /\ SEGYAnalyzer.path_exists w (file_path row)
                                   = SEGYAnalyzer.Returns true
                                /\ SEGYAnalyzer.segyio_open w (file_path row)
                                   = SEGYAnalyzer.Returns f
                                /\ SEGYAnalyzer.read_geometry max_traces_per_file row f
                                   = SEGYAnalyzer.Returns r).
Proof.
  intros w inventory m run selected.
  destruct (analyze_segy_files_tally w m (SEGYAnalyzer.init inventory))
    as (Hr & Hm & He & _).
  fold run in Hr, Hm, He. cbv zeta in Hr, Hm, He.
  assert (Hsel : forall v,
             In v (map (SEGYAnalyzer.analyze_row w m)
                       (SEGYAnalyzer.segy_files (SEGYAnalyzer.init inventory))) ->
             exists row, selected row /\ SEGYAnalyzer.analyze_row w m row = v).
  { intros v Hv. apply in_map_iff in Hv. destruct Hv as (row & <- & Hrow).
    cbn [SEGYAnalyzer.init SEGYAnalyzer.segy_files] in Hrow.
    apply filter_In in Hrow. exists row. split; [exact Hrow | reflexivity]. }
  split; [|split].
  - intros p Hp. rewrite Hm in Hp. apply in_missing_of in Hp.
    destruct (Hsel _ Hp) as (row & Hrow & E).
    assert (Hc := analyze_row_cases w m row). rewrite E in Hc.
    exists row. split; [exact Hrow|]. split; tauto.
  - intros p e Hp. rewrite He in Hp. apply in_errors_of in Hp.
    destruct (Hsel _ Hp) as (row & Hrow & E).
    assert (Hc := analyze_row_cases w m row). rewrite E in Hc.
    exists row. split; [exact Hrow|]. split; [tauto | exact E].
  - intros r Hin. rewrite Hr in Hin. apply in_accessible_of in Hin.
    destruct (Hsel _ Hin) as (row & Hrow & E).
    assert (Hc := analyze_row_cases w m row). rewrite E in Hc.
    destruct Hc as (Hex & f & Ho & Hg).
    exists row, f. repeat split; try assumption; apply Hrow.
Qed.

Lemma batch_lists_sound_witness :
  exists row,
    (In row sample_inventory /\ SEGYAnalyzer.is_segy_name (file_name row) = true)
    /\ "/data/gone.SGY" = SEGYAnalyzer.path_str sample_world (file_path row)
    /\ SEGYAnalyzer.path_exists sample_world (file_path row) = SEGYAnalyzer.Returns false.
Proof.
  apply (proj1 (batch_lists_sound sample_world sample_inventory None) "/data/gone.SGY").
  vm_compute. left. reflexivity.
Defined.



(** X22.  The survey boundaries are empty exactly when no file could be
    analysed; otherwise they enclose the ranges of every analysed file:
    the inline range starts at or below each file's [inline_min] and ends
    at or above its [inline_max], and likewise for the crosslines. *)
Theorem survey_boundaries_enclose :
  forall (w : SEGYAnalyzer.world) (self : SEGYAnalyzer.t),
    let analysed := fst (SEGYAnalyzer.analyze_segy_files w self None) in
    (fst (SEGYAnalyzer.get_survey_boundaries w self) = None <-> analysed = [])
    /\ forall il_lo il_hi xl_lo xl_hi : Z,
         fst (SEGYAnalyzer.get_survey_boundaries w self)
         = Some ((il_lo, il_hi), (xl_lo, xl_hi)) ->
         Forall (fun r =>
                   (il_lo <= SEGYAnalyzer.inline_min r)%Z
                   /\ (SEGYAnalyzer.inline_max r <= il_hi)%Z
                   /\ (xl_lo <= SEGYAnalyzer.crossline_min r)%Z
                   /\ (SEGYAnalyzer.crossline_max r <= xl_hi)%Z)
                analysed.
Proof.
  intros w self analysed. unfold analysed, SEGYAnalyzer.get_survey_boundaries.
  destruct (SEGYAnalyzer.analyze_segy_files w self None) as [analysis_df self'].
  cbn [fst]. destruct analysis_df as [|r rest].
  - split; [split; reflexivity | discriminate].
  - split; [split; discriminate|].
    intros il_lo il_hi xl_lo xl_hi H. injection H as <- <- <- <-.
    destruct (fold_min_bound (map SEGYAnalyzer.inline_min rest)
                (SEGYAnalyzer.inline_min r)) as [Ha1 Ha2].
    destruct (fold_max_bound (map SEGYAnalyzer.inline_max rest)
                (SEGYAnalyzer.inline_max r)) as [Hb1 Hb2].
    destruct (fold_min_bound (map SEGYAnalyzer.crossline_min rest)
                (SEGYAnalyzer.crossline_min r)) as [Hc1 Hc2].
    destruct (fold_max_bound (map SEGYAnalyzer.crossline_max rest)
                (SEGYAnalyzer.crossline_max r)) as [Hd1 Hd2].
    constructor; [repeat split; assumption|].
    apply Forall_forall. intros x Hx. repeat split.
    + apply Ha2. exact (in_map _ _ _ Hx).
    + apply Hb2. exact (in_map _ _ _ Hx).
    + apply Hc2. exact (in_map _ _ _ Hx).
    + apply Hd2. exact (in_map _ _ _ Hx).
Qed.

Lemma survey_boundaries_enclose_witness :
  exists il_lo il_hi xl_lo xl_hi : Z,
    fst (SEGYAnalyzer.get_survey_boundaries sample_world (SEGYAnalyzer.init sample_inventory))
    = Some ((il_lo, il_hi), (xl_lo, xl_hi))
    /\ Forall (fun r => (il_lo <= SEGYAnalyzer.inline_min r)%Z
                        /\ (SEGYAnalyzer.inline_max r <= il_hi)%Z
                        /\ (xl_lo <= SEGYAnalyzer.crossline_min r)%Z
                        /\ (SEGYAnalyzer.crossline_max r <= xl_hi)%Z)
              (fst (SEGYAnalyzer.analyze_segy_files sample_world
                      (SEGYAnalyzer.init sample_inventory) None)).
Proof.
  exists 100%Z, 300%Z, 1000%Z, 2500%Z. split; [reflexivity|].
  apply (proj2 (survey_boundaries_enclose sample_world (SEGYAnalyzer.init sample_inventory))).
  reflexivity.
Defined.


(** ** Case-insensitive grouping *)

Lemma upper_lower_char (c : ascii) :
  PyStr.upper_char (PyStr.lower_char c) = PyStr.upper_char c.
Proof. by_ascii c. Qed.

Lemma title_from_lower (b : bool) (s : string) :
  PyStr.title_from b (PyStr.lower s) = PyStr.title_from b s.
Proof.
  revert b. induction s as [|c r IH]; intros b; simpl; [reflexivity|].
  rewrite is_cased_lower_char, IH.
  destruct b; [rewrite lower_char_idem | rewrite upper_lower_char]; reflexivity.
Qed.

Lemma after_last_dot_lower (s : string) :
  after_last_dot (PyStr.lower s) = option_map PyStr.lower (after_last_dot s).
Proof.
  induction s as [|c r IH]; simpl; [reflexivity|].
  rewrite IH, is_dot_lower_char.
  destruct (after_last_dot r); simpl; [reflexivity|].
  destruct (Regex.is_dot c); reflexivity.
Qed.

Lemma truthy_lower (s : string) : PyStr.truthy (PyStr.lower s) = PyStr.truthy s.
Proof. destruct s; reflexivity. Qed.

Lemma normalize_extension_lower (e : string) :
  normalize_extension (Some (PyStr.lower e)) = normalize_extension (Some e).
Proof.
  unfold normalize_extension. rewrite truthy_lower, lower_idem. reflexivity.
Qed.

Lemma derive_extension_lower (name : string) :
  derive_extension (PyStr.lower name) = derive_extension name.
Proof.
  unfold derive_extension. rewrite !search_after_last_dot, after_last_dot_lower.
  destruct (after_last_dot name) as [t|]; cbn [option_map]; [|reflexivity].
  rewrite truthy_lower. destruct (PyStr.truthy t); [|reflexivity].
  apply normalize_extension_lower.
Qed.

(** X24.  Grouping is case-insensitive: two records whose file names
    differ only in letter case and whose file types differ only in letter
    case have the same grouping key, under either view, and so are
    counted in the same row of the tables. *)
Theorem grouping_ignores_case :
  forall (view_option : string) (r r' : file_record),
    PyStr.lower (file_name r) = PyStr.lower (file_name r') ->
    PyStr.lower (file_type r) = PyStr.lower (file_type r') ->
    record_key view_option r = record_key view_option r'.
Proof.
  intros view_option r r' Hn Ht.
  assert (He : derive_extension (file_name r) = derive_extension (file_name r')).
  { rewrite <- (derive_extension_lower (file_name r)), Hn.
    apply derive_extension_lower. }
  assert (Hty : PyStr.title (file_type r) = PyStr.title (file_type r')).
  { unfold PyStr.title.
    rewrite <- (title_from_lower false (file_type r)), Ht.
    apply title_from_lower. }
  unfold record_key. rewrite He, Hty. reflexivity.
Qed.

Lemma grouping_ignores_case_witness :
  record_key "Extension" (sample_record "Lines.CSV" "text FILE" 1 "h1")
  = record_key "Extension" (sample_record "lines.csv" "Text file" 2 "h2").
Proof.
  apply grouping_ignores_case; reflexivity.
Defined.

(** ** The charts of the inventory page *)




